(** * CAD quoting engine: a shallow embedding of [src/main.py]

    The engine ([CADQuotingEngine]) prices a CNC-machined part from the
    measurements of its mesh.  Python's [float] values are modelled by exact
    rationals ([Q], compared with [==]), Python's [int] values by [Z], and
    dictionaries keyed by strings by [gmap string _].  Rounding errors of
    binary floating point are therefore outside of this model: every
    statement below is about the arithmetic the code writes down. *)

From Stdlib Require Import ZArith QArith Qabs Qround Lqa Lia List.
From Stdlib Require Import Sorting.Sorted Sorting.Permutation.
From stdpp Require Import base option gmap strings.
Import ListNotations.

Local Open Scope Q_scope.

(** ** Python's numeric primitives *)

Module Py.

(** [a < b] on floats. *)
Definition ltb (a b : Q) : bool := negb (Qle_bool b a).

(** [a <= b] on floats. *)
Definition leb (a b : Q) : bool := Qle_bool a b.

(** [a != b] on floats. *)
Definition neqb (a b : Q) : bool := negb (Qeq_bool a b).

(** The builtin [max(a, b)]: the first argument wins unless the second is
    strictly larger. *)
Definition max (a b : Q) : Q := if ltb a b then b else a.

(** The builtin [min(a, b)]: the first argument wins unless the second is
    strictly smaller. *)
Definition min (a b : Q) : Q := if ltb b a then b else a.

(** [int(x)] on a float: truncation towards zero. *)
Definition int (x : Q) : Z := Z.quot (Qnum x) (Z.pos (Qden x)).

(** [np.ceil(x)]. *)
Definition ceil (x : Q) : Z := Qceiling x.

(** [a / b] on [numpy.float64] values: a division by zero gives [inf] or
    [nan] with a warning, it does not raise; [None] stands for both. *)
Definition div (a b : Q) : option Q :=
  if Qeq_bool b 0 then None else Some (a / b).

(** [round(x)] on a float: to the nearest integer, ties to the even one.
    The code never calls it; the specification of the feature estimator
    is worded with it. *)
Definition round (x : Q) : Z :=
  let f := Qfloor x in
  let r := x - inject_Z f in
  if ltb r (1 # 2) then f
  else if ltb (1 # 2) r then (f + 1)%Z
  else if Z.even f then f else (f + 1)%Z.

(** [sorted(l)] on a list of numbers, as a stable insertion sort. *)
Section Sorted.
Context {A : Type} (le : A -> A -> bool).

Fixpoint insert_sorted (x : A) (l : list A) : list A :=
  match l with
  | [] => [x]
  | y :: t => if le x y then x :: l else y :: insert_sorted x t
  end.

Fixpoint sorted (l : list A) : list A :=
  match l with
  | [] => []
  | x :: t => insert_sorted x (sorted t)
  end.

(** [min(l, key=key)] on a non-empty list, [None] standing for the
    [ValueError] of the empty one: the first element whose key is
    minimal.  [lt] is [<] on keys. *)
Context {K : Type} (lt : K -> K -> bool) (key : A -> K).

Fixpoint min_from (best : A) (l : list A) : A :=
  match l with
  | [] => best
  | x :: t => min_from (if lt (key x) (key best) then x else best) t
  end.

Definition min_by (l : list A) : option A :=
  match l with
  | [] => None
  | x :: t => Some (min_from x t)
  end.
End Sorted.

(** [all(d <= b for d, b in zip(ds, bs))]. *)
Definition all_le (ds bs : list Q) : bool :=
  forallb (fun p => leb (fst p) (snd p)) (combine ds bs).

(** Tuple comparison [(a1, a2) < (b1, b2)] for a (float, int) pair: the
    first components decide unless they are equal. *)
Definition pair_ltb (a b : Q * Z) : bool :=
  if neqb (fst a) (fst b) then ltb (fst a) (fst b)
  else (snd a <? snd b)%Z.

End Py.

(** ** The engine's calibration tables ([CADQuotingEngine.__init__]) *)

Definition aluminum_density : Q := 2.7.
Definition aluminum_price_per_kg : Q := 5.0.

(** Stock sizes in millimetres, [[length, width, height]]. *)
Definition block_sizes : list (list Z) :=
  [ [25; 25; 25]; [50; 50; 50]; [75; 75; 75];
    [100; 100; 100]; [125; 125; 125]; [150; 125; 125]; [150; 150; 150];
    [175; 150; 150]; [200; 150; 150]; [200; 200; 150]; [200; 200; 200];
    [250; 200; 200]; [250; 250; 200]; [250; 250; 250]; [300; 250; 250];
    [300; 300; 250]; [300; 300; 300];
    [400; 300; 300]; [400; 400; 300]; [500; 400; 400]; [600; 500; 500] ]%Z.

Definition coarse_mrr : Q := 350.
Definition medium_mrr : Q := 100.
Definition fine_mrr : Q := 20.

Definition coarse_cost_per_mm3 : Q := 0.00011.
Definition medium_cost_per_mm3 : Q := 0.00039.
Definition fine_cost_per_mm3 : Q := 0.00175.

Definition min_price_per_part : Q := 200.

Definition complexity_calibration : gmap string Q :=
  <["low" := 0.85]> (<["medium" := 1.0]> (<["high" := 1.35]> ∅)).

Definition size_calibration : gmap string Q :=
  <["small" := 1.15]> (<["medium" := 1.0]> (<["large" := 0.9]> ∅)).

Record LaborRates := {
  rate_cad_cam_programming : Q;
  rate_machine_setup : Q;
  rate_tool_setup : Q;
  rate_quality_inspection : Q;
  rate_deburring_finishing : Q;
  rate_project_management : Q
}.

Definition labor_rates : LaborRates :=
  {| rate_cad_cam_programming := 110.0;
     rate_machine_setup := 65.0;
     rate_tool_setup := 55.0;
     rate_quality_inspection := 65.0;
     rate_deburring_finishing := 45.0;
     rate_project_management := 85.0 |}.

Definition base_setup_time : Q := 0.4.

Record ExpeditedOption := {
  multiplier : Q;
  max_days : Z;
  description : string
}.

Definition expedited_options : gmap string ExpeditedOption :=
  <["5_days" := {| multiplier := 1.3; max_days := 5;
                   description := "5 business days" |}]>
  (<["4_days" := {| multiplier := 1.6; max_days := 4;
                    description := "4 business days" |}]>
  (<["3_days" := {| multiplier := 2.0; max_days := 3;
                    description := "3 business days" |}]> ∅)).

(** ** Quantity discount ([get_quantity_multiplier]) *)

Definition tiers : list (Z * Q) :=
  [ (1%Z, 1.0); (2%Z, 0.95); (3%Z, 0.92); (4%Z, 0.90); (5%Z, 0.88);
    (10%Z, 0.85); (15%Z, 0.82); (20%Z, 0.80); (25%Z, 0.78); (50%Z, 0.75);
    (100%Z, 0.72) ].

(** The loop [for i in range(len(tiers) - 1)]: the first pair of adjacent
    control points that encloses [quantity] decides; [None] when the loop
    runs to its end. *)
Fixpoint interpolate (ts : list (Z * Q)) (quantity : Z) : option Q :=
  match ts with
  | (lower_qty, lower_mult) :: (((upper_qty, upper_mult) :: _) as rest) =>
      if ((lower_qty <=? quantity) && (quantity <=? upper_qty))%Z
      then
        let t := inject_Z (quantity - lower_qty)
                 / inject_Z (upper_qty - lower_qty) in
        Some (lower_mult + (upper_mult - lower_mult) * t)
      else interpolate rest quantity
  | _ => None
  end.

Definition get_quantity_multiplier (quantity : Z) : Q :=
  if (quantity <? 1)%Z then snd (hd (0%Z, 0) tiers)
  else if (quantity >=? 5000)%Z then snd (List.last tiers (0%Z, 0))
  else match interpolate tiers quantity with
       | Some r => r
       | None => snd (hd (0%Z, 0) tiers)
       end.

(** [get_quantity_discount_percentage]. *)
Definition get_quantity_discount_percentage (quantity : Z) : Q :=
  let multiplier := get_quantity_multiplier quantity in
  if Py.ltb multiplier 1.0 then (1.0 - multiplier) * 100 else 0.0.

(** ** The mesh and its measurements *)

(** What the engine reads from a [trimesh.Trimesh]: [bounds] (two corners),
    the signed [volume], [area], the signed volume of [convex_hull], and the
    lengths of [faces] and [edges]. *)
Record Mesh := {
  bounds_min : Q * Q * Q;
  bounds_max : Q * Q * Q;
  volume : Q;
  area : Q;
  convex_hull_volume : Q;
  faces : N;
  edges : N
}.

Record BoundingBox := {
  length : Q; width : Q; height : Q;
  x_min : Q; y_min : Q; z_min : Q;
  x_max : Q; y_max : Q; z_max : Q
}.

Definition get_bounding_box (mesh : Mesh) : BoundingBox :=
  let '(x0, y0, z0) := bounds_min mesh in
  let '(x1, y1, z1) := bounds_max mesh in
  {| length := x1 - x0; width := y1 - y0; height := z1 - z0;
     x_min := x0; y_min := y0; z_min := z0;
     x_max := x1; y_max := y1; z_max := z1 |}.

(** The [volumes] dictionary; its ["block_volume"] entry is only added by
    [calculate_costs]. *)
Record Volumes := {
  v_part_volume : Q;
  v_convex_hull_volume : Q;
  v_shrink_wrap_volume : Q;
  v_block_volume : option Z
}.

Definition calculate_volumes (mesh : Mesh) : Volumes :=
  let part_volume := Qabs (volume mesh) in
  let convex_hull_volume := Qabs (convex_hull_volume mesh) in
  let shrink_wrap_volume := convex_hull_volume * 0.8 in
  {| v_part_volume := part_volume;
     v_convex_hull_volume := convex_hull_volume;
     v_shrink_wrap_volume := shrink_wrap_volume;
     v_block_volume := None |}.

(** ** Stock selection ([find_smallest_fitting_block]) *)

(** [block[0] * block[1] * block[2]]; every block of the catalog has three
    entries. *)
Definition volume_of (block : list Z) : Z :=
  (nth 0 block 0 * nth 1 block 0 * nth 2 block 0)%Z.

(** The test [all(d <= b for d, b in zip(sorted_dimensions, sorted_block))]
    with [sorted_block = sorted(block)]. *)
Definition fits (sorted_dimensions : list Q) (block : list Z) : bool :=
  Py.all_le sorted_dimensions (map inject_Z (Py.sorted Z.leb block)).

(** The tuples [(block, waste_ratio, block_volume)] of [fitting_blocks]. *)
Record Candidate := {
  c_block : list Z;
  c_waste : Q;
  c_volume : Z
}.

Definition find_smallest_fitting_block (dimensions : list Q)
  : option (list Z) :=
  let sorted_dimensions := Py.sorted Py.leb dimensions in
  let part_volume :=
    nth 0 dimensions 0 * nth 1 dimensions 0 * nth 2 dimensions 0 in
  let within_waste :=
    flat_map (fun block =>
      if fits sorted_dimensions block then
        let block_volume := volume_of block in
        let waste_ratio :=
          (inject_Z block_volume - part_volume) / inject_Z block_volume in
        if Py.leb waste_ratio 0.7
        then [ {| c_block := block; c_waste := waste_ratio;
                  c_volume := block_volume |} ]
        else []
      else []) block_sizes in
  let fitting_blocks :=
    match within_waste with
    | [] =>
        flat_map (fun block =>
          if fits sorted_dimensions block
          then [ {| c_block := block; c_waste := 0.8;
                    c_volume := volume_of block |} ]
          else []) block_sizes
    | _ :: _ => within_waste
    end in
  match fitting_blocks with
  | [] => None
  | _ :: _ =>
      let optimal_blocks :=
        List.filter (fun b => Py.leb 0.2 (c_waste b) && Py.leb (c_waste b) 0.6)
                    fitting_blocks in
      match optimal_blocks with
      | _ :: _ =>
          c_block <$>
            Py.min_by Py.pair_ltb
                      (fun x => (Qabs (c_waste x - 0.3), c_volume x))
                      optimal_blocks
      | [] => c_block <$> Py.min_by Z.ltb c_volume fitting_blocks
      end
  end.

(** ** Feature estimation ([detect_features]) *)

Record Features := {
  holes : Z;
  cavities : Z;
  sharp_edges : Z;
  pockets : Z;
  feature_score : Q
}.

Definition set_holes (f : Features) (n : Z) : Features :=
  {| holes := n; cavities := cavities f; sharp_edges := sharp_edges f;
     pockets := pockets f; feature_score := feature_score f |}.

(** The body of the [try] block, on the dictionary [features].  On a
    [Mesh] every measurement it reads is there, so that nothing raises and
    the [except] branch is not entered.  The volumes are [numpy.float64]
    values: with a hull of volume zero the quotient is [inf] or [nan], the
    cavity ratio [1 - inf] or [1 - nan], and neither passes the test
    [> 0.2]. *)
Definition detect_features (mesh : Mesh) : Features :=
  let features :=
    {| holes := 0; cavities := 0; sharp_edges := 0; pockets := 0;
       feature_score := 0 |} in
  let volume := Qabs (volume mesh) in
  let surface_area := area mesh in
  let sa_volume_ratio :=
    if Py.ltb 0 volume then surface_area / volume else 0 in
  let features :=
    if Py.ltb 0.15 sa_volume_ratio
    then set_holes features (Z.max 1 (Z.min 5 (Py.int (sa_volume_ratio * 5))))
    else features in
  let cavities :=
    match Py.div volume (Qabs (convex_hull_volume mesh)) with
    | None => 0%Z
    | Some quotient =>
        let cavity_ratio := 1 - quotient in
        if Py.ltb 0.2 cavity_ratio
        then Z.max 1 (Z.min 3 (Py.int (cavity_ratio * 3)))
        else 0%Z
    end in
  let edge_face_ratio :=
    if (0 <? faces mesh)%N
    then inject_Z (Z.of_N (edges mesh)) / inject_Z (Z.of_N (faces mesh))
    else 0 in
  let sharp_edges :=
    if Py.ltb 3.0 edge_face_ratio
    then Z.max 1 (Z.min 4 (Py.int (edge_face_ratio * 1.5)))
    else 0%Z in
  let face_count := Z.of_N (faces mesh) in
  let pockets :=
    if (2000 <? face_count)%Z
    then Z.max 1 (Z.min 8 (Py.int (inject_Z face_count / 1000)))
    else if (1000 <? face_count)%Z
    then Z.max 1 (Z.min 4 (Py.int (inject_Z face_count / 800)))
    else 0%Z in
  {| holes := holes features;
     cavities := cavities;
     sharp_edges := sharp_edges;
     pockets := pockets;
     feature_score :=
       inject_Z (holes features) * 0.8 + inject_Z cavities * 0.6
       + inject_Z sharp_edges * 0.4 + inject_Z pockets * 0.5 |}.

(** ** Complexity ([calculate_complexity_score], [get_complexity_category]) *)

Definition calculate_complexity_score (mesh : Mesh) : Q :=
  let features := detect_features mesh in
  let sa_volume_ratio :=
    if Py.ltb 0 (Qabs (volume mesh))
    then area mesh / Qabs (volume mesh) else 0 in
  let sa_complexity := Py.min (sa_volume_ratio * 0.15) 3.0 in
  let face_count := inject_Z (Z.of_N (faces mesh)) in
  let face_complexity := Py.min ((face_count / 1000) * 2.0) 4.0 in
  let edge_count := inject_Z (Z.of_N (edges mesh)) in
  let edge_complexity := Py.min ((edge_count / 1000) * 2.0) 3.0 in
  let feature_complexity := Py.min (feature_score features * 0.3) 2.0 in
  let complexity :=
    sa_complexity + face_complexity + edge_complexity + feature_complexity in
  Py.min complexity 8.0.

Definition get_complexity_category (score : Q) : string :=
  if Py.ltb score 4.0 then "low"
  else if Py.ltb score 6.0 then "medium"
  else "high".

(** ** Size ([get_size_category]) *)

Definition get_size_category (length : Q) : string :=
  if Py.ltb length 50 then "small"
  else if Py.ltb length 200 then "medium"
  else "large".

(** ** Machine time ([estimate_machine_time]) *)

Definition estimate_machine_time (volumes : Volumes) : Q :=
  let block_volume := inject_Z (default 0%Z (v_block_volume volumes)) in
  let coarse_volume := block_volume - v_convex_hull_volume volumes in
  let medium_volume :=
    v_convex_hull_volume volumes - v_shrink_wrap_volume volumes in
  let fine_volume := v_shrink_wrap_volume volumes - v_part_volume volumes in
  let coarse_time :=
    if Py.ltb 0 coarse_mrr then coarse_volume / coarse_mrr else 0 in
  let medium_time :=
    if Py.ltb 0 medium_mrr then medium_volume / medium_mrr else 0 in
  let fine_time := if Py.ltb 0 fine_mrr then fine_volume / fine_mrr else 0 in
  coarse_time + medium_time + fine_time.

(** ** Labor ([calculate_labor_costs]) *)

Record LaborCosts := {
  cad_cam_programming : Q;
  machine_setup : Q;
  tool_setup : Q;
  quality_inspection : Q;
  deburring_finishing : Q;
  project_management : Q;
  total_labor_cost : Q;
  total_hours : Q
}.

Definition calculate_labor_costs (mesh : Mesh) (complexity_score : Q)
    (quantity : Z) : LaborCosts :=
  let base_setup_hours := base_setup_time in
  let complexity_factor :=
    if Py.ltb complexity_score 3 then 0.8
    else if Py.ltb complexity_score 7 then 1.0
    else 1.4 in
  let cad_cam_hours := base_setup_hours * 0.4 * complexity_factor in
  let machine_setup_hours := base_setup_hours * 0.3 * complexity_factor in
  let tool_setup_hours := base_setup_hours * 0.3 * complexity_factor in
  let surface_area_m2 := area mesh / 1000000 in
  let qc_hours := Py.max 0.1 (surface_area_m2 * 0.5) * complexity_factor in
  let finishing_hours :=
    Py.max 0.1 (surface_area_m2 * 0.3) * complexity_factor in
  let project_mgmt_hours := 0.2 + complexity_score / 20 in
  let cad_cam := cad_cam_hours * rate_cad_cam_programming labor_rates in
  let machine := machine_setup_hours * rate_machine_setup labor_rates in
  let tool := tool_setup_hours * rate_tool_setup labor_rates in
  let quality := qc_hours * rate_quality_inspection labor_rates in
  let deburring := finishing_hours * rate_deburring_finishing labor_rates in
  let project := project_mgmt_hours * rate_project_management labor_rates in
  let total_labor_cost :=
    if (1 <? quantity)%Z then
      let per_part_costs := quality + deburring in
      cad_cam + machine + tool + project + per_part_costs * inject_Z quantity
    else 0 + cad_cam + machine + tool + quality + deburring + project in
  {| cad_cam_programming := cad_cam;
     machine_setup := machine;
     tool_setup := tool;
     quality_inspection := quality;
     deburring_finishing := deburring;
     project_management := project;
     total_labor_cost := total_labor_cost;
     total_hours :=
       cad_cam_hours + machine_setup_hours + tool_setup_hours + qc_hours
       + finishing_hours + project_mgmt_hours |}.

(** ** The quote ([calculate_costs]) *)

Record Breakdown := {
  coarse_milling_cost : Q;
  medium_milling_cost : Q;
  fine_milling_cost : Q;
  b_material_cost : Q;
  labor_costs : LaborCosts;
  b_total_labor_cost : Q;
  complexity_multiplier : Q;
  size_multiplier : Q;
  quantity_multiplier : Q;
  block_size : list Z;
  block_volume : Z;
  coarse_volume : Q;
  medium_volume : Q;
  fine_volume : Q;
  b_expedited_multiplier : Q;
  expedited_description : option string
}.

Record QuoteResult := {
  per_unit_cost : Q;
  lead_time_days : Z;
  material_cost : Q;
  machine_time_cost : Q;
  total_cost : Q;
  bounding_box : BoundingBox;
  q_volume : Q;
  surface_area : Q;
  complexity_score : Q;
  breakdown : Breakdown;
  expedited : bool;
  expedited_multiplier : Q
}.

Inductive PyError :=
| ValueError (message : string)
| TypeError (message : string).

Inductive result (A : Type) :=
| Return (a : A)
| Raise (e : PyError).
Arguments Return {A} a.
Arguments Raise {A} e.

(** The guard [expedited and expedited in self.expedited_options]: [None]
    and the empty string are falsy, any other string is looked up. *)
Definition expedited_config (expedited : option string)
  : option ExpeditedOption :=
  match expedited with
  | None => None
  | Some s => if String.eqb s "" then None else expedited_options !! s
  end.

(** The statements of [calculate_costs] that follow the test of
    [best_block]: everything the quote is made of, for the chosen block. *)
Definition quote_for_block (mesh : Mesh) (quantity : Z)
    (expedited : option string) (best_block : list Z) : QuoteResult :=
  let bounding_box := get_bounding_box mesh in
  let volumes := calculate_volumes mesh in
  let complexity_score := calculate_complexity_score mesh in
  let block_volume := volume_of best_block in
  let volumes :=
    {| v_part_volume := v_part_volume volumes;
       v_convex_hull_volume := v_convex_hull_volume volumes;
       v_shrink_wrap_volume := v_shrink_wrap_volume volumes;
       v_block_volume := Some block_volume |} in
  let coarse_volume :=
    Py.max 0 (inject_Z block_volume - v_convex_hull_volume volumes) in
  let medium_volume :=
    Py.max 0 (v_convex_hull_volume volumes
              - v_shrink_wrap_volume volumes) in
  let fine_volume :=
    Py.max 0 (v_shrink_wrap_volume volumes - v_part_volume volumes) in
  let coarse_cost := coarse_volume * coarse_cost_per_mm3 in
  let medium_cost := medium_volume * medium_cost_per_mm3 in
  let fine_cost := fine_volume * fine_cost_per_mm3 in
  let machine_time_cost := coarse_cost + medium_cost + fine_cost in
  let material_volume_cm3 := v_part_volume volumes / 1000 in
  let material_mass_kg := material_volume_cm3 * aluminum_density / 1000 in
  let material_cost := material_mass_kg * aluminum_price_per_kg in
  let labor_costs :=
    calculate_labor_costs mesh complexity_score quantity in
  let total_labor_cost := total_labor_cost labor_costs in
  let complexity_multiplier :=
    default 1.0 (complexity_calibration
                   !! get_complexity_category complexity_score) in
  let machine_time_cost := machine_time_cost * complexity_multiplier in
  let size_multiplier :=
    default 1.0 (size_calibration
                   !! get_size_category (length bounding_box)) in
  let machine_time_cost := machine_time_cost * size_multiplier in
  let quantity_multiplier := get_quantity_multiplier quantity in
  let total_cost_per_unit :=
    (machine_time_cost + material_cost + total_labor_cost)
    * quantity_multiplier in
  let total_cost_per_unit :=
    if Py.ltb total_cost_per_unit min_price_per_part
    then min_price_per_part else total_cost_per_unit in
  let config := expedited_config expedited in
  let expedited_multiplier :=
    match config with Some c => multiplier c | None => 1.0 end in
  let expedited_description := description <$> config in
  let total_cost_per_unit :=
    match config with
    | Some _ => total_cost_per_unit * expedited_multiplier
    | None => total_cost_per_unit
    end in
  (* the lead time computed from the machining time ... *)
  let machine_time_hours := estimate_machine_time volumes / 3600 in
  let setup_time_hours := base_setup_time * 0.5 in
  let finishing_time_hours := machine_time_hours * 0.05 in
  let qc_time_hours :=
    (machine_time_hours + setup_time_hours + finishing_time_hours)
    * 0.03 in
  let total_time_per_part :=
    machine_time_hours + setup_time_hours + finishing_time_hours
    + qc_time_hours in
  let total_time_hours :=
    if (quantity =? 1)%Z then total_time_per_part
    else setup_time_hours
         + (machine_time_hours + finishing_time_hours + qc_time_hours)
           * inject_Z quantity in
  let effective_hours_per_day := 10 * 0.9 in
  let adjusted_total_hours := total_time_hours * 1.1 in
  let lead_time_days :=
    Z.max 1 (Py.ceil (adjusted_total_hours / effective_hours_per_day)) in
  (* ... is overwritten by the one read off the complexity score *)
  let standard_lead_time :=
    if Py.ltb complexity_score 5 then 7%Z
    else if Py.ltb complexity_score 8 then 10%Z
    else 11%Z in
  let lead_time_days := standard_lead_time in
  let lead_time_days :=
    match config, expedited with
    | Some _, Some s =>
        if String.eqb s "3_days" then 3%Z
        else if String.eqb s "4_days" then 4%Z
        else if String.eqb s "5_days" then 5%Z
        else lead_time_days
    | _, _ => lead_time_days
    end in
  {| per_unit_cost := total_cost_per_unit;
     lead_time_days := lead_time_days;
     material_cost := material_cost;
     machine_time_cost := machine_time_cost;
     total_cost := total_cost_per_unit * inject_Z quantity;
     bounding_box := bounding_box;
     q_volume := v_part_volume volumes;
     surface_area := area mesh;
     complexity_score := complexity_score;
     breakdown :=
       {| coarse_milling_cost := coarse_cost;
          medium_milling_cost := medium_cost;
          fine_milling_cost := fine_cost;
          b_material_cost := material_cost;
          labor_costs := labor_costs;
          b_total_labor_cost := total_labor_cost;
          complexity_multiplier := complexity_multiplier;
          size_multiplier := size_multiplier;
          quantity_multiplier := quantity_multiplier;
          block_size := best_block;
          block_volume := block_volume;
          coarse_volume := coarse_volume;
          medium_volume := medium_volume;
          fine_volume := fine_volume;
          b_expedited_multiplier := expedited_multiplier;
          expedited_description := expedited_description |};
     expedited := bool_decide (expedited <> None);
     expedited_multiplier := expedited_multiplier |}.

(** [calculate_costs]: measure, choose the block, raise when there is none
    ([not best_block] holds of [None] and of an empty list), otherwise
    assemble the quote. *)
Definition calculate_costs (mesh : Mesh) (quantity : Z)
    (expedited : option string) : result QuoteResult :=
  let bounding_box := get_bounding_box mesh in
  let dimensions :=
    [length bounding_box; width bounding_box; height bounding_box] in
  match find_smallest_fitting_block dimensions with
  | None | Some [] =>
      Raise (ValueError "Part is too large for available block sizes")
  | Some best_block =>
      Return (quote_for_block mesh quantity expedited best_block)
  end.

(** ** The mesh object

    [Mesh] holds the measurements of a mesh that has them.  The object the
    engine is handed may have none: [trimesh] leaves [bounds] at [None] for
    a mesh without faces. *)
Inductive Trimesh :=
| WithBounds (mesh : Mesh)
| WithoutBounds.

(** [get_bounding_box] on any mesh object: [bounds[1] - bounds[0]] is its
    first use of [bounds], and subscripting [None] raises. *)
Definition get_bounding_box_of (t : Trimesh) : result BoundingBox :=
  match t with
  | WithBounds mesh => Return (get_bounding_box mesh)
  | WithoutBounds => Raise (TypeError "'NoneType' object is not subscriptable")
  end.

(** [calculate_costs] on any mesh object: its first statement is the call of
    [get_bounding_box], outside of any [try]. *)
Definition calculate_costs_of (t : Trimesh) (quantity : Z)
    (expedited : option string) : result QuoteResult :=
  match get_bounding_box_of t, t with
  | Raise err, _ => Raise err
  | Return _, WithBounds mesh => calculate_costs mesh quantity expedited
  | Return _, WithoutBounds =>
      Raise (TypeError "'NoneType' object is not subscriptable")
  end.

(** * Vocabulary of the statements *)

(** The quantities [lo], [lo + 1], ..., [lo + n - 1]. *)
Definition range (lo : Z) (n : nat) : list Z :=
  map (fun i => (lo + Z.of_nat i)%Z) (seq 0 n).

(** The control points paired with their successors. *)
Definition segments : list ((Z * Q) * (Z * Q)) := combine tiers (tl tiers).

Definition on_segment (s : (Z * Q) * (Z * Q)) (q : Z) : Q :=
  let '((lower_qty, lower_mult), (upper_qty, upper_mult)) := s in
  lower_mult
  + (upper_mult - lower_mult)
    * (inject_Z (q - lower_qty) / inject_Z (upper_qty - lower_qty)).

(** The order behind the comparison of (float, int) pairs. *)
Definition pair_le (a b : Q * Z) : Prop :=
  fst a < fst b \/ (fst a == fst b /\ (snd a <= snd b)%Z).

(** ** Stock selection *)

(** [dimensions[0] * dimensions[1] * dimensions[2]]. *)
Definition part_volume_of (dimensions : list Q) : Q :=
  nth 0 dimensions 0 * nth 1 dimensions 0 * nth 2 dimensions 0.

(** The waste ratio of a block for a part. *)
Definition waste_ratio (dimensions : list Q) (block : list Z) : Q :=
  (inject_Z (volume_of block) - part_volume_of dimensions)
  / inject_Z (volume_of block).

(** A catalog block in which the part fits: sorted ascending, the
    dimensions of the part are below those of the block one by one. *)
Definition block_fits (dimensions : list Q) (block : list Z) : Prop :=
  In block block_sizes /\ fits (Py.sorted Py.leb dimensions) block = true.

(** The band of preferred waste ratios. *)
Definition optimal (w : Q) : Prop := 0.2 <= w <= 0.6.

(** The key by which the blocks of the preferred band are ranked. *)
Definition optimal_key (dimensions : list Q) (block : list Z) : Q * Z :=
  (Qabs (waste_ratio dimensions block - 0.3), volume_of block).

(** The two lists that the loops of [find_smallest_fitting_block] build. *)
Definition within_waste (dimensions : list Q) : list Candidate :=
  flat_map (fun block =>
    if fits (Py.sorted Py.leb dimensions) block then
      if Py.leb (waste_ratio dimensions block) 0.7
      then [ {| c_block := block; c_waste := waste_ratio dimensions block;
                c_volume := volume_of block |} ]
      else []
    else []) block_sizes.

Definition all_fitting (dimensions : list Q) : list Candidate :=
  flat_map (fun block =>
    if fits (Py.sorted Py.leb dimensions) block
    then [ {| c_block := block; c_waste := 0.8;
              c_volume := volume_of block |} ]
    else []) block_sizes.

Definition in_band (b : Candidate) : bool :=
  Py.leb 0.2 (c_waste b) && Py.leb (c_waste b) 0.6.


(** The list [fitting_blocks] once both loops have run. *)
Definition fitting_blocks_of (dimensions : list Q) : list Candidate :=
  match within_waste dimensions with
  | [] => all_fitting dimensions
  | _ :: _ => within_waste dimensions
  end.


(** ** The quote *)

(** The dimensions handed to the stock selection. *)
Definition dimensions_of (mesh : Mesh) : list Q :=
  [length (get_bounding_box mesh); width (get_bounding_box mesh);
   height (get_bounding_box mesh)].

(** The lead time read off the complexity score. *)
Definition standard_lead_time (score : Q) : Z :=
  if Py.ltb score 5 then 7%Z else if Py.ltb score 8 then 10%Z else 11%Z.

(** The price floor. *)
Definition floored (cost : Q) : Q :=
  if Py.ltb cost min_price_per_part then min_price_per_part else cost.

(** The sum of the three milling costs listed in the breakdown of a quote. *)
Definition milling_costs (r : QuoteResult) : Q :=
  coarse_milling_cost (breakdown r) + medium_milling_cost (breakdown r)
  + fine_milling_cost (breakdown r).

(** The composite cost of a quote, scaled by the quantity multiplier. *)
Definition composite_cost (r : QuoteResult) : Q :=
  (machine_time_cost r + material_cost r + b_total_labor_cost (breakdown r))
  * quantity_multiplier (breakdown r).


(** The longest edge of a bounding box, and the size multiplier as it
    would be if it were keyed off that edge. *)
Definition longest_edge (bb : BoundingBox) : Q :=
  Py.max (Py.max (length bb) (width bb)) (height bb).

Definition size_multiplier_by_longest_edge (bb : BoundingBox) : Q :=
  if Py.ltb (longest_edge bb) 50 then 1.15
  else if Py.leb 200 (longest_edge bb) then 0.9
  else 1.0.

(** ** Sample parts *)

(** A plate of 100 x 80 x 20 mm with a shallow pocket. *)
Definition plate : Mesh :=
  {| bounds_min := (0, 0, 0); bounds_max := (100, 80, 20);
     volume := 150000; area := 30000; convex_hull_volume := 160000;
     faces := 500; edges := 1500 |}.

(** A bar of 10 x 300 x 10 mm lying along the y axis. *)
Definition bar_along_y : Mesh :=
  {| bounds_min := (0, 0, 0); bounds_max := (10, 300, 10);
     volume := 30000; area := 12200; convex_hull_volume := 30000;
     faces := 12; edges := 36 |}.





(** ** Feature counts, by the formulas of the specification

    The conversion of a ratio to a count is a parameter [to_int]: the
    specification words it as rounding ([Py.round]), the code truncates
    ([Py.int]). *)

Definition clamp (lo hi x : Z) : Z := Z.max lo (Z.min hi x).

Definition holes_with (to_int : Q -> Z) (mesh : Mesh) : Z :=
  let ratio := area mesh / volume mesh in
  if Py.ltb 0.15 ratio then clamp 1 5 (to_int (ratio * 5)) else 0%Z.

Definition cavities_with (to_int : Q -> Z) (mesh : Mesh) : Z :=
  let ratio := 1 - volume mesh / convex_hull_volume mesh in
  if Py.ltb 0.2 ratio then clamp 1 3 (to_int (ratio * 3)) else 0%Z.

Definition sharp_edges_with (to_int : Q -> Z) (mesh : Mesh) : Z :=
  let ratio :=
    inject_Z (Z.of_N (edges mesh)) / inject_Z (Z.of_N (faces mesh)) in
  if Py.ltb 3.0 ratio then clamp 1 4 (to_int (ratio * 1.5)) else 0%Z.

Definition pockets_with (to_int : Q -> Z) (mesh : Mesh) : Z :=
  let face_count := Z.of_N (faces mesh) in
  if (2000 <? face_count)%Z
  then clamp 1 8 (to_int (inject_Z face_count / 1000))
  else if (1000 <? face_count)%Z
  then clamp 1 4 (to_int (inject_Z face_count / 800))
  else 0%Z.

(** The plate again, meshed with 2600 faces. *)
Definition fine_plate : Mesh :=
  {| bounds_min := (0, 0, 0); bounds_max := (100, 80, 20);
     volume := 150000; area := 15000; convex_hull_volume := 160000;
     faces := 2600; edges := 3900 |}.


(** A block dominates a part when, both sorted ascending, each dimension
    of the part is at most the corresponding one of the block. *)
Definition dominates (block : list Z) (dimensions : list Q) : Prop :=
  Forall2 Qle (Py.sorted Py.leb dimensions)
              (map inject_Z (Py.sorted Z.leb block)).

(** The blocks of the catalog that fit a part. *)
Definition fitting_block (dimensions : list Q) (block : list Z) : Prop :=
  In block block_sizes /\ dominates block dimensions.

Definition too_large : PyError :=
  ValueError "Part is too large for available block sizes".



(** The assignment [volumes["block_volume"] = block_volume]. *)
Definition set_block_volume (volumes : Volumes) (block_volume : Z) : Volumes :=
  {| v_part_volume := v_part_volume volumes;
     v_convex_hull_volume := v_convex_hull_volume volumes;
     v_shrink_wrap_volume := v_shrink_wrap_volume volumes;
     v_block_volume := Some block_volume |}.


(** * Properties *)

(** ** Facts about the numeric primitives *)

Lemma ltb_lt (a b : Q) : Py.ltb a b = true <-> a < b.
Proof.
  unfold Py.ltb. rewrite negb_true_iff.
  destruct (Qle_bool b a) eqn:E.
  - apply Qle_bool_iff in E. split; [discriminate | intros H; lra].
  - split; [intros _ | reflexivity].
    apply Qnot_le_lt. intros H. apply Qle_bool_iff in H. congruence.
Qed.

Lemma ltb_ge (a b : Q) : Py.ltb a b = false <-> b <= a.
Proof.
  unfold Py.ltb. rewrite negb_false_iff. apply Qle_bool_iff.
Qed.

Lemma leb_le (a b : Q) : Py.leb a b = true <-> a <= b.
Proof. apply Qle_bool_iff. Qed.

Lemma leb_gt (a b : Q) : Py.leb a b = false <-> b < a.
Proof.
  unfold Py.leb. destruct (Qle_bool a b) eqn:E.
  - apply Qle_bool_iff in E. split; [discriminate | intros H; lra].
  - split; [intros _ | reflexivity].
    apply Qnot_le_lt. intros H. apply Qle_bool_iff in H. congruence.
Qed.

Lemma neqb_false (a b : Q) : Py.neqb a b = false <-> a == b.
Proof. unfold Py.neqb. rewrite negb_false_iff. apply Qeq_bool_iff. Qed.

Lemma neqb_true (a b : Q) : Py.neqb a b = true <-> ~ a == b.
Proof.
  unfold Py.neqb. rewrite negb_true_iff. split.
  - intros E H. apply Qeq_bool_iff in H. congruence.
  - intros H. destruct (Qeq_bool a b) eqn:E; [| reflexivity].
    apply Qeq_bool_iff in E. contradiction.
Qed.

(** Case analysis on a comparison, with the order fact in the context. *)
Ltac case_ltb a b :=
  let E := fresh "E" in
  destruct (Py.ltb a b) eqn:E;
  [apply ltb_lt in E | apply ltb_ge in E].

Ltac case_leb a b :=
  let E := fresh "E" in
  destruct (Py.leb a b) eqn:E;
  [apply leb_le in E | apply leb_gt in E].

Lemma max_spec (a b : Q) :
  (a < b /\ Py.max a b = b) \/ (b <= a /\ Py.max a b = a).
Proof. unfold Py.max. case_ltb a b; auto. Qed.

Lemma min_spec (a b : Q) :
  (b < a /\ Py.min a b = b) \/ (a <= b /\ Py.min a b = a).
Proof. unfold Py.min. case_ltb b a; auto. Qed.

Lemma max_lower (a b : Q) : a <= Py.max a b.
Proof. destruct (max_spec a b) as [[H ->] | [H ->]]; lra. Qed.

Lemma min_upper (a b : Q) : Py.min a b <= b.
Proof. destruct (min_spec a b) as [[H ->] | [H ->]]; lra. Qed.

Lemma min_lower (a b c : Q) : c <= a -> c <= b -> c <= Py.min a b.
Proof. intros. destruct (min_spec a b) as [[H' ->] | [H' ->]]; lra. Qed.

Lemma in_range (lo : Z) (n : nat) (q : Z) :
  (lo <= q < lo + Z.of_nat n)%Z -> In q (range lo n).
Proof.
  intros H. unfold range. apply in_map_iff.
  exists (Z.to_nat (q - lo)). split; [lia |].
  apply in_seq. lia.
Qed.

Lemma forallb_range (P : Z -> bool) (lo : Z) (n : nat) :
  forallb P (range lo n) = true ->
  forall q, (lo <= q < lo + Z.of_nat n)%Z -> P q = true.
Proof.
  intros H q Hq. rewrite forallb_forall in H. apply H, in_range, Hq.
Qed.

(** ** The quantity multiplier *)

Lemma get_quantity_multiplier_below (q : Z) :
  (q < 1)%Z -> get_quantity_multiplier q = 1.0.
Proof.
  intros H. unfold get_quantity_multiplier.
  destruct (Z.ltb_spec q 1); [reflexivity | lia].
Qed.

Lemma get_quantity_multiplier_bulk (q : Z) :
  (5000 <= q)%Z -> get_quantity_multiplier q = 0.72.
Proof.
  intros H. unfold get_quantity_multiplier.
  destruct (Z.ltb_spec q 1); [lia |].
  destruct (Z.geb_spec q 5000); [reflexivity | lia].
Qed.

(** On [1, 100] every step to the next quantity lowers the multiplier or
    keeps it. *)
Lemma get_quantity_multiplier_step (q : Z) :
  (1 <= q < 100)%Z ->
  get_quantity_multiplier (q + 1) <= get_quantity_multiplier q.
Proof.
  intros H. apply Qle_bool_iff.
  apply (forallb_range
           (fun q => Qle_bool (get_quantity_multiplier (q + 1))
                              (get_quantity_multiplier q)) 1 99);
    [vm_compute; reflexivity | lia].
Qed.

Lemma get_quantity_multiplier_table_mono (a b : Z) :
  (1 <= a <= b)%Z -> (b <= 100)%Z ->
  get_quantity_multiplier b <= get_quantity_multiplier a.
Proof.
  intros [Ha Hab] Hb. revert Hb.
  pattern b. apply (Zlt_lower_bound_ind _ a); [| exact Hab].
  intros x IH Hx Hx100.
  destruct (Z.eq_dec x a) as [-> | Hne]; [lra |].
  assert (Hs := get_quantity_multiplier_step (x - 1) ltac:(lia)).
  replace (x - 1 + 1)%Z with x in Hs by lia.
  assert (Hp := IH (x - 1)%Z ltac:(lia) ltac:(lia)). lra.
Qed.

(** No quantity gets a multiplier below the last control point's or above
    the first one's. *)
Lemma get_quantity_multiplier_bounds (q : Z) :
  0.72 <= get_quantity_multiplier q <= 1.
Proof.
  destruct (Z.lt_ge_cases q 1) as [H | H].
  { rewrite get_quantity_multiplier_below by exact H. lra. }
  destruct (Z.le_gt_cases q 100) as [H100 | H100].
  - split.
    + assert (E : get_quantity_multiplier 100 == 0.72) by reflexivity.
      rewrite <- E. apply get_quantity_multiplier_table_mono; lia.
    + assert (E : get_quantity_multiplier 1 == 1) by reflexivity.
      rewrite <- E. apply get_quantity_multiplier_table_mono; lia.
  - unfold get_quantity_multiplier.
    destruct (Z.ltb_spec q 1); [lia |].
    destruct (Z.geb_spec q 5000); [cbn; lra |].
    cbn -[Z.leb].
    repeat match goal with
           | |- context [(?a <=? q)%Z && (q <=? ?b)%Z] =>
               replace ((a <=? q)%Z && (q <=? b)%Z) with false
                 by (symmetry; apply andb_false_iff; right;
                     apply Z.leb_gt; lia)
           end.
    lra.
Qed.

(** Between the last control point and 5000 the loop finds no enclosing
    pair and the function falls through to the first control point. *)
Lemma get_quantity_multiplier_gap (q : Z) :
  (100 < q < 5000)%Z -> get_quantity_multiplier q = 1.0.
Proof.
  intros H. unfold get_quantity_multiplier.
  destruct (Z.ltb_spec q 1); [lia |].
  destruct (Z.geb_spec q 5000); [lia |].
  cbn -[Z.leb].
  repeat match goal with
         | |- context [(?a <=? q)%Z && (q <=? ?b)%Z] =>
             replace ((a <=? q)%Z && (q <=? b)%Z) with false
               by (symmetry; apply andb_false_iff; right;
                   apply Z.leb_gt; lia)
         end.
  reflexivity.
Qed.

(** Outside of the gap the multiplier never increases with the quantity. *)
Lemma get_quantity_multiplier_mono_outside_gap (a b : Z) :
  (a <= b)%Z -> (a <= 100 \/ 5000 <= a)%Z -> (b <= 100 \/ 5000 <= b)%Z ->
  get_quantity_multiplier b <= get_quantity_multiplier a.
Proof.
  intros Hab Ha Hb.
  destruct (Z.le_gt_cases 5000 b) as [Hbulk | Hsmall].
  { rewrite (get_quantity_multiplier_bulk b) by exact Hbulk.
    destruct (get_quantity_multiplier_bounds a). lra. }
  assert (Hb100 : (b <= 100)%Z) by lia.
  destruct (Z.lt_ge_cases a 1) as [Ha1 | Ha1].
  { rewrite (get_quantity_multiplier_below a) by exact Ha1.
    destruct (get_quantity_multiplier_bounds b). lra. }
  apply get_quantity_multiplier_table_mono; lia.
Qed.

(** Between two adjacent control points the multiplier is the linear
    interpolation by fractional position (at a shared control point both
    neighbouring segments give the same value). *)
Lemma get_quantity_multiplier_interpolates (s : (Z * Q) * (Z * Q)) (q : Z) :
  In s segments -> (fst (fst s) <= q <= fst (snd s))%Z ->
  get_quantity_multiplier q == on_segment s q.
Proof.
  intros Hs Hq.
  assert (Hr : (1 <= q < 1 + Z.of_nat 100)%Z).
  { cbn in Hs. repeat destruct Hs as [<- | Hs]; cbn in Hq; lia. }
  assert (Hall :
    forallb (fun q =>
      forallb (fun s =>
        implb ((fst (fst s) <=? q)%Z && (q <=? fst (snd s))%Z)
              (Qeq_bool (get_quantity_multiplier q) (on_segment s q)))
        segments) (range 1 100) = true) by (vm_compute; reflexivity).
  pose proof (forallb_range _ 1 100 Hall q Hr) as Hq'. cbv beta in Hq'.
  rewrite forallb_forall in Hq'. specialize (Hq' s Hs).
  replace ((fst (fst s) <=? q)%Z && (q <=? fst (snd s))%Z) with true in Hq'.
  - apply Qeq_bool_iff, Hq'.
  - symmetry. apply andb_true_iff. split; apply Z.leb_le; lia.
Qed.

(** C1 (the part of it that the code breaks).  The claim asks for a
    multiplier that never increases with the quantity.  The last control
    point is at 100 but the guard for bulk orders only starts at 5000: from
    101 to 4999 the loop over the control points finds nothing and the
    function returns the first control point's multiplier, so that 101
    parts get no discount at all while 100 parts get the largest one. *)
Theorem C1_multiplier_jumps_after_last_tier :
  get_quantity_multiplier 100 == 0.72 /\
  get_quantity_multiplier 101 == 1 /\
  get_quantity_multiplier 100 < get_quantity_multiplier 101 /\
  get_quantity_multiplier 4999 == 1 /\
  get_quantity_multiplier 5000 == 0.72.
Proof. repeat split. Qed.

(** ** Python's [min] with a key *)

Section MinBy.
Context {A K : Type} (lt : K -> K -> bool) (key : A -> K).
Context (le : K -> K -> Prop).
Hypothesis le_refl : forall k, le k k.
Hypothesis le_trans : forall a b c, le a b -> le b c -> le a c.
Hypothesis lt_true : forall a b, lt a b = true -> le a b.
Hypothesis lt_false : forall a b, lt a b = false -> le b a.

Lemma min_from_In (best : A) (l : list A) :
  In (Py.min_from lt key best l) (best :: l).
Proof.
  revert best. induction l as [| x t IH]; intros best; cbn; [auto |].
  destruct (IH (if lt (key x) (key best) then x else best)) as [E | H].
  - destruct (lt (key x) (key best)); rewrite <- E; auto.
  - auto.
Qed.

Lemma min_from_le_best (best : A) (l : list A) :
  le (key (Py.min_from lt key best l)) (key best).
Proof.
  revert best. induction l as [| x t IH]; intros best; cbn; [auto |].
  destruct (lt (key x) (key best)) eqn:E; [| apply IH].
  eapply le_trans; [apply IH | apply lt_true, E].
Qed.

Lemma min_from_least (best : A) (l : list A) (x : A) :
  In x (best :: l) -> le (key (Py.min_from lt key best l)) (key x).
Proof.
  revert best. induction l as [| y t IH]; intros best Hx.
  - destruct Hx as [<- | []]. apply le_refl.
  - cbn. destruct Hx as [<- | [<- | Hx]].
    + eapply le_trans; [apply min_from_le_best |].
      destruct (lt (key y) (key best)) eqn:E;
        [apply lt_true, E | apply le_refl].
    + eapply le_trans; [apply min_from_le_best |].
      destruct (lt (key y) (key best)) eqn:E;
        [apply le_refl | apply lt_false, E].
    + apply IH. right. exact Hx.
Qed.

Lemma min_by_Some (l : list A) (m : A) :
  Py.min_by lt key l = Some m ->
  In m l /\ forall x, In x l -> le (key m) (key x).
Proof.
  destruct l as [| x t]; [discriminate |]. cbn. intros [= <-].
  split; [apply min_from_In | apply min_from_least].
Qed.

Lemma min_by_nonempty (l : list A) :
  l <> [] -> exists m, Py.min_by lt key l = Some m.
Proof. destruct l; [congruence | eauto]. Qed.
End MinBy.

Lemma pair_le_refl (k : Q * Z) : pair_le k k.
Proof. right. split; [reflexivity | lia]. Qed.

Lemma pair_le_trans (a b c : Q * Z) : pair_le a b -> pair_le b c -> pair_le a c.
Proof.
  unfold pair_le. intros [H1 | [H1 H1']] [H2 | [H2 H2']].
  - left. lra.
  - left. lra.
  - left. lra.
  - right. split; [lra | lia].
Qed.

Lemma pair_ltb_true (a b : Q * Z) : Py.pair_ltb a b = true -> pair_le a b.
Proof.
  unfold Py.pair_ltb, pair_le.
  destruct (Py.neqb (fst a) (fst b)) eqn:E.
  - intros H. left. apply ltb_lt, H.
  - intros H. right. split; [apply neqb_false, E | apply Z.ltb_lt in H; lia].
Qed.

Lemma pair_ltb_false (a b : Q * Z) : Py.pair_ltb a b = false -> pair_le b a.
Proof.
  unfold Py.pair_ltb, pair_le.
  destruct (Py.neqb (fst a) (fst b)) eqn:E.
  - intros H. left. apply ltb_ge in H. apply neqb_true in E.
    destruct (Qlt_le_dec (fst b) (fst a)) as [Hlt | Hle]; [exact Hlt |].
    exfalso. apply E. lra.
  - intros H. right. apply neqb_false in E. apply Z.ltb_ge in H.
    split; [symmetry; exact E | exact H].
Qed.

Lemma Zltb_true_le (a b : Z) : (a <? b)%Z = true -> (a <= b)%Z.
Proof. intros H. apply Z.ltb_lt in H. lia. Qed.

Lemma Zltb_false_le (a b : Z) : (a <? b)%Z = false -> (b <= a)%Z.
Proof. intros H. apply Z.ltb_ge in H. exact H. Qed.

Lemma min_by_volume_Some (l : list Candidate) (m : Candidate) :
  Py.min_by Z.ltb c_volume l = Some m ->
  In m l /\ forall x, In x l -> (c_volume m <= c_volume x)%Z.
Proof.
  apply (min_by_Some Z.ltb c_volume Z.le).
  - apply Z.le_refl.
  - intros a b c. apply Z.le_trans.
  - apply Zltb_true_le.
  - apply Zltb_false_le.
Qed.

Lemma min_by_key_Some (key : Candidate -> Q * Z) (l : list Candidate)
    (m : Candidate) :
  Py.min_by Py.pair_ltb key l = Some m ->
  In m l /\ forall x, In x l -> pair_le (key m) (key x).
Proof.
  apply (min_by_Some Py.pair_ltb key pair_le).
  - apply pair_le_refl.
  - apply pair_le_trans.
  - apply pair_ltb_true.
  - apply pair_ltb_false.
Qed.

(** ** Stock selection *)

Lemma find_smallest_fitting_block_unfold (dimensions : list Q) :
  find_smallest_fitting_block dimensions =
  let fitting_blocks :=
    match within_waste dimensions with
    | [] => all_fitting dimensions
    | _ :: _ => within_waste dimensions
    end in
  match fitting_blocks with
  | [] => None
  | _ :: _ =>
      match List.filter in_band fitting_blocks with
      | _ :: _ =>
          c_block <$>
            Py.min_by Py.pair_ltb
                      (fun x => (Qabs (c_waste x - 0.3), c_volume x))
                      (List.filter in_band fitting_blocks)
      | [] => c_block <$> Py.min_by Z.ltb c_volume fitting_blocks
      end
  end.
Proof. reflexivity. Qed.

Lemma block_sizes_positive (block : list Z) :
  In block block_sizes -> (0 < volume_of block)%Z.
Proof.
  intros H. cbn in H.
  repeat (destruct H as [<- | H]; [reflexivity |]). contradiction.
Qed.

Lemma block_sizes_nonempty (block : list Z) :
  In block block_sizes -> block <> [].
Proof.
  intros H ->. apply block_sizes_positive in H.
  vm_compute in H. discriminate.
Qed.

Lemma in_within_waste (dimensions : list Q) (c : Candidate) :
  In c (within_waste dimensions) <->
  exists block,
    block_fits dimensions block /\
    waste_ratio dimensions block <= 0.7 /\
    c = {| c_block := block; c_waste := waste_ratio dimensions block;
           c_volume := volume_of block |}.
Proof.
  unfold within_waste, block_fits. rewrite in_flat_map. split.
  - intros (block & Hin & Hc).
    destruct (fits _ block) eqn:Hf; [| contradiction].
    case_leb (waste_ratio dimensions block) 0.7; [| contradiction].
    destruct Hc as [<- | []]. exists block. auto.
  - intros (block & [Hin Hf] & Hw & ->). exists block. split; [exact Hin |].
    rewrite Hf. apply leb_le in Hw. rewrite Hw. left. reflexivity.
Qed.

Lemma in_all_fitting (dimensions : list Q) (c : Candidate) :
  In c (all_fitting dimensions) <->
  exists block,
    block_fits dimensions block /\
    c = {| c_block := block; c_waste := 0.8; c_volume := volume_of block |}.
Proof.
  unfold all_fitting, block_fits. rewrite in_flat_map. split.
  - intros (block & Hin & Hc).
    destruct (fits _ block) eqn:Hf; [| contradiction].
    destruct Hc as [<- | []]. exists block. auto.
  - intros (block & [Hin Hf] & ->). exists block. split; [exact Hin |].
    rewrite Hf. left. reflexivity.
Qed.

Lemma in_band_optimal (c : Candidate) :
  in_band c = true <-> optimal (c_waste c).
Proof.
  unfold in_band, optimal. rewrite andb_true_iff, !leb_le. tauto.
Qed.

(** The waste ratio against a threshold, without the division. *)
Lemma waste_ratio_le (dimensions : list Q) (block : list Z) (c : Q) :
  (0 < volume_of block)%Z ->
  waste_ratio dimensions block <= c <->
  inject_Z (volume_of block) - part_volume_of dimensions
  <= c * inject_Z (volume_of block).
Proof.
  intros Hpos. unfold waste_ratio.
  assert (H : 0 < inject_Z (volume_of block)).
  { replace 0 with (inject_Z 0) by reflexivity. rewrite <- Zlt_Qlt. exact Hpos. }
  split; intros Hle.
  - apply (Qmult_le_compat_r _ _ (inject_Z (volume_of block))) in Hle;
      [| lra].
    eapply Qle_trans; [| exact Hle]. apply Qle_lteq. right. field. lra.
  - apply Qle_shift_div_r; assumption.
Qed.

Lemma in_fitting_blocks_fits (dimensions : list Q) (c : Candidate) :
  In c (fitting_blocks_of dimensions) ->
  block_fits dimensions (c_block c) /\ c_volume c = volume_of (c_block c).
Proof.
  unfold fitting_blocks_of. intros H.
  destruct (within_waste dimensions) eqn:Ew.
  - apply in_all_fitting in H. destruct H as (b & Hb & ->). auto.
  - rewrite <- Ew in H. apply in_within_waste in H.
    destruct H as (b & Hb & _ & ->). auto.
Qed.

Lemma fitting_blocks_complete (dimensions : list Q) (block : list Z) :
  block_fits dimensions block -> fitting_blocks_of dimensions <> [].
Proof.
  intros Hb E. unfold fitting_blocks_of in E.
  destruct (within_waste dimensions) eqn:Ew; [| discriminate].
  assert (H : In {| c_block := block; c_waste := 0.8;
                    c_volume := volume_of block |} (all_fitting dimensions)).
  { apply in_all_fitting. eauto. }
  rewrite E in H. contradiction.
Qed.

Lemma find_smallest_fitting_block_fits (dimensions : list Q) (block : list Z) :
  find_smallest_fitting_block dimensions = Some block ->
  block_fits dimensions block.
Proof.
  rewrite find_smallest_fitting_block_unfold. cbv zeta.
  fold (fitting_blocks_of dimensions).
  destruct (fitting_blocks_of dimensions) as [| c0 l0] eqn:Ef; [discriminate |].
  rewrite <- Ef.
  assert (Hsub : forall c,
    In c (List.filter in_band (fitting_blocks_of dimensions)) ->
    In c (fitting_blocks_of dimensions)).
  { intros c Hc. apply filter_In in Hc. tauto. }
  destruct (List.filter in_band (fitting_blocks_of dimensions))
    as [| c1 l1] eqn:Eo.
  - destruct (Py.min_by Z.ltb c_volume _) as [m |] eqn:Em; [| discriminate].
    intros [= <-].
    apply min_by_volume_Some in Em as [Hin _].
    apply in_fitting_blocks_fits, Hin.
  - destruct (Py.min_by Py.pair_ltb _ _) as [m |] eqn:Em; [| discriminate].
    intros [= <-].
    apply min_by_key_Some in Em as [Hin _].
    apply in_fitting_blocks_fits, Hsub, Hin.
Qed.

Lemma find_smallest_fitting_block_None (dimensions : list Q) :
  find_smallest_fitting_block dimensions = None <->
  forall block, ~ block_fits dimensions block.
Proof.
  split.
  - rewrite find_smallest_fitting_block_unfold. cbv zeta.
    fold (fitting_blocks_of dimensions). intros H block Hb.
    apply fitting_blocks_complete in Hb.
    destruct (fitting_blocks_of dimensions) as [| c0 l0] eqn:Ef;
      [congruence |].
    destruct (List.filter in_band (c0 :: l0)) as [| c1 l1];
      cbn in H; discriminate.
  - intros H.
    destruct (find_smallest_fitting_block dimensions) as [b |] eqn:E;
      [| reflexivity].
    apply find_smallest_fitting_block_fits in E. elim (H b E).
Qed.

(** With a fitting block in the preferred band, the chosen block is the
    one of the band with the least key. *)
Lemma find_smallest_fitting_block_optimal (dimensions : list Q) :
  (exists b', block_fits dimensions b' /\
              optimal (waste_ratio dimensions b')) ->
  exists block,
    find_smallest_fitting_block dimensions = Some block /\
    block_fits dimensions block /\
    optimal (waste_ratio dimensions block) /\
    forall b', block_fits dimensions b' ->
               optimal (waste_ratio dimensions b') ->
               pair_le (optimal_key dimensions block)
                       (optimal_key dimensions b').
Proof.
  intros (b0 & Hb0 & Ho0).
  assert (Hin : forall b', block_fits dimensions b' ->
                  optimal (waste_ratio dimensions b') ->
                  In {| c_block := b'; c_waste := waste_ratio dimensions b';
                        c_volume := volume_of b' |}
                     (List.filter in_band (within_waste dimensions))).
  { intros b' Hb' Ho'. apply filter_In. split.
    - apply in_within_waste. exists b'. repeat split; try apply Hb'.
      destruct Ho'. lra.
    - apply in_band_optimal. exact Ho'. }
  rewrite find_smallest_fitting_block_unfold. cbv zeta.
  pose proof (Hin b0 Hb0 Ho0) as H0.
  destruct (within_waste dimensions) as [| c0 l0] eqn:Ew; [contradiction |].
  rewrite <- Ew in *.
  destruct (List.filter in_band (within_waste dimensions))
    as [| c1 l1] eqn:Eo; [contradiction |].
  rewrite <- Eo in *.
  destruct (Py.min_by Py.pair_ltb
              (fun x => (Qabs (c_waste x - 0.3), c_volume x))
              (List.filter in_band (within_waste dimensions)))
    as [m |] eqn:Em; [| rewrite Eo in Em; discriminate].
  apply min_by_key_Some in Em as [Hm Hleast].
  apply filter_In in Hm. destruct Hm as [Hm Hband].
  apply in_band_optimal in Hband.
  apply in_within_waste in Hm. destruct Hm as (b & Hb & _ & ->).
  exists b. cbn [c_block c_waste c_volume fmap option_fmap option_map] in *.
  repeat split; try apply Hb; try apply Hband.
  intros b' Hb' Ho'. apply (Hleast _ (Hin b' Hb' Ho')).
Qed.

(** Without a fitting block in the preferred band, the chosen block is the
    fitting block of least volume. *)
Lemma find_smallest_fitting_block_fallback (dimensions : list Q) :
  (exists b', block_fits dimensions b') ->
  (forall b', block_fits dimensions b' ->
              ~ optimal (waste_ratio dimensions b')) ->
  exists block,
    find_smallest_fitting_block dimensions = Some block /\
    block_fits dimensions block /\
    forall b', block_fits dimensions b' ->
               (volume_of block <= volume_of b')%Z.
Proof.
  intros (b0 & Hb0) Hnone.
  assert (Hno : List.filter in_band (fitting_blocks_of dimensions) = []).
  { destruct (List.filter in_band (fitting_blocks_of dimensions))
      as [| c l] eqn:E; [reflexivity |].
    assert (Hc : In c (List.filter in_band (fitting_blocks_of dimensions)))
      by (rewrite E; left; reflexivity).
    apply filter_In in Hc. destruct Hc as [Hc Hband].
    apply in_band_optimal in Hband. exfalso.
    unfold fitting_blocks_of in Hc.
    destruct (within_waste dimensions) eqn:Ew.
    - apply in_all_fitting in Hc. destruct Hc as (b & _ & ->).
      cbn in Hband. destruct Hband. lra.
    - rewrite <- Ew in Hc. apply in_within_waste in Hc.
      destruct Hc as (b & Hb & _ & ->). apply (Hnone b Hb Hband). }
  rewrite find_smallest_fitting_block_unfold. cbv zeta.
  fold (fitting_blocks_of dimensions).
  pose proof (fitting_blocks_complete _ _ Hb0) as Hne.
  destruct (fitting_blocks_of dimensions) as [| c0 l0] eqn:Ef;
    [congruence |].
  rewrite <- Ef in *. rewrite Hno.
  destruct (Py.min_by Z.ltb c_volume (fitting_blocks_of dimensions))
    as [m |] eqn:Em; [| rewrite Ef in Em; discriminate].
  apply min_by_volume_Some in Em as [Hm Hleast].
  destruct (in_fitting_blocks_fits _ _ Hm) as [Hfit Hvol].
  exists (c_block m). cbn. repeat split; try apply Hfit.
  intros b' Hb'. rewrite <- Hvol.
  unfold fitting_blocks_of in Hm, Hleast.
  destruct (within_waste dimensions) as [| c1 l1] eqn:Ew.
  - apply (Hleast {| c_block := b'; c_waste := 0.8;
                     c_volume := volume_of b' |}).
    apply in_all_fitting. eauto.
  - rewrite <- Ew in *.
    destruct (Qlt_le_dec 0.7 (waste_ratio dimensions b')) as [Hbig | Hsmall].
    + apply in_within_waste in Hm. destruct Hm as (b & Hb & Hw & ->).
      cbn [c_volume].
      apply waste_ratio_le in Hw; [| apply block_sizes_positive, Hb].
      assert (Hb'' : ~ waste_ratio dimensions b' <= 0.7) by lra.
      rewrite waste_ratio_le in Hb''
        by (apply block_sizes_positive, Hb').
      rewrite Zle_Qle. lra.
    + apply (Hleast {| c_block := b';
                       c_waste := waste_ratio dimensions b';
                       c_volume := volume_of b' |}).
      apply in_within_waste. eauto.
Qed.

(** ** The quote *)

Lemma calculate_costs_unfold (mesh : Mesh) (quantity : Z)
    (expedited : option string) :
  calculate_costs mesh quantity expedited =
  match find_smallest_fitting_block (dimensions_of mesh) with
  | None | Some [] =>
      Raise (ValueError "Part is too large for available block sizes")
  | Some best_block =>
      Return (quote_for_block mesh quantity expedited best_block)
  end.
Proof. reflexivity. Qed.

(** A returned quote is the one assembled for the block that was chosen,
    a block of the catalog in which the part fits. *)
Lemma calculate_costs_Return (mesh : Mesh) (quantity : Z)
    (expedited : option string) (r : QuoteResult) :
  calculate_costs mesh quantity expedited = Return r ->
  exists best_block,
    find_smallest_fitting_block (dimensions_of mesh) = Some best_block /\
    block_fits (dimensions_of mesh) best_block /\
    r = quote_for_block mesh quantity expedited best_block.
Proof.
  rewrite calculate_costs_unfold.
  destruct (find_smallest_fitting_block (dimensions_of mesh))
    as [[| x b] |] eqn:E; try discriminate.
  intros [= <-]. exists (x :: b).
  auto using find_smallest_fitting_block_fits.
Qed.

(** A quote is returned as soon as the stock selection finds a block. *)
Lemma calculate_costs_total (mesh : Mesh) (quantity : Z)
    (expedited : option string) (block : list Z) :
  find_smallest_fitting_block (dimensions_of mesh) = Some block ->
  calculate_costs mesh quantity expedited =
  Return (quote_for_block mesh quantity expedited block).
Proof.
  intros E. rewrite calculate_costs_unfold, E.
  apply find_smallest_fitting_block_fits in E. destruct E as [E _].
  apply block_sizes_nonempty in E. destruct block; [congruence | reflexivity].
Qed.


(** Reading a field off the assembled quote: the record and the vocabulary
    are unfolded, the functions the quote calls are not. *)
Ltac quote_field :=
  intros;
  repeat match goal with r := quote_for_block _ _ _ _ |- _ => subst r end;
  lazy beta zeta iota
       delta [quote_for_block per_unit_cost lead_time_days material_cost
              machine_time_cost total_cost bounding_box q_volume
              surface_area complexity_score breakdown expedited
              expedited_multiplier coarse_milling_cost medium_milling_cost
              fine_milling_cost b_material_cost labor_costs
              b_total_labor_cost complexity_multiplier size_multiplier
              quantity_multiplier block_size block_volume coarse_volume
              medium_volume fine_volume b_expedited_multiplier
              expedited_description calculate_volumes v_part_volume
              v_convex_hull_volume v_shrink_wrap_volume v_block_volume
              composite_cost floored milling_costs standard_lead_time];
  repeat split.

Lemma quote_total_cost (mesh : Mesh) (quantity : Z)
    (expedited : option string) (block : list Z) :
  let r := quote_for_block mesh quantity expedited block in
  total_cost r = per_unit_cost r * inject_Z quantity.
Proof. quote_field. Qed.

Lemma quote_per_unit_cost (mesh : Mesh) (quantity : Z)
    (expedited : option string) (block : list Z) :
  let r := quote_for_block mesh quantity expedited block in
  per_unit_cost r =
  match expedited_config expedited with
  | Some _ => floored (composite_cost r) * expedited_multiplier r
  | None => floored (composite_cost r)
  end.
Proof. quote_field. Qed.

Lemma quote_expedited_multiplier (mesh : Mesh) (quantity : Z)
    (expedited : option string) (block : list Z) :
  let r := quote_for_block mesh quantity expedited block in
  expedited_multiplier r =
  match expedited_config expedited with
  | Some c => multiplier c
  | None => 1.0
  end.
Proof. quote_field. Qed.

Lemma quote_lead_time_days (mesh : Mesh) (quantity : Z)
    (expedited : option string) (block : list Z) :
  let r := quote_for_block mesh quantity expedited block in
  lead_time_days r =
  match expedited_config expedited, expedited with
  | Some _, Some s =>
      if String.eqb s "3_days" then 3%Z
      else if String.eqb s "4_days" then 4%Z
      else if String.eqb s "5_days" then 5%Z
      else standard_lead_time (complexity_score r)
  | _, _ => standard_lead_time (complexity_score r)
  end.
Proof. quote_field. Qed.

Lemma quote_machine_time_cost (mesh : Mesh) (quantity : Z)
    (expedited : option string) (block : list Z) :
  let r := quote_for_block mesh quantity expedited block in
  machine_time_cost r =
  milling_costs r * complexity_multiplier (breakdown r)
  * size_multiplier (breakdown r).
Proof. quote_field. Qed.

Lemma quote_multipliers (mesh : Mesh) (quantity : Z)
    (expedited : option string) (block : list Z) :
  let r := quote_for_block mesh quantity expedited block in
  complexity_multiplier (breakdown r) =
    default 1.0 (complexity_calibration
                   !! get_complexity_category
                        (calculate_complexity_score mesh)) /\
  size_multiplier (breakdown r) =
    default 1.0 (size_calibration
                   !! get_size_category (length (get_bounding_box mesh))) /\
  quantity_multiplier (breakdown r) = get_quantity_multiplier quantity /\
  complexity_score r = calculate_complexity_score mesh /\
  bounding_box r = get_bounding_box mesh.
Proof. quote_field. Qed.

Lemma quote_milling (mesh : Mesh) (quantity : Z)
    (expedited : option string) (block : list Z) :
  let r := quote_for_block mesh quantity expedited block in
  let hull := Qabs (convex_hull_volume mesh) in
  block_volume (breakdown r) = volume_of block /\
  coarse_volume (breakdown r) = Py.max 0 (inject_Z (volume_of block) - hull) /\
  medium_volume (breakdown r) = Py.max 0 (hull - hull * 0.8) /\
  fine_volume (breakdown r) = Py.max 0 (hull * 0.8 - Qabs (volume mesh)) /\
  coarse_milling_cost (breakdown r)
    = coarse_volume (breakdown r) * coarse_cost_per_mm3 /\
  medium_milling_cost (breakdown r)
    = medium_volume (breakdown r) * medium_cost_per_mm3 /\
  fine_milling_cost (breakdown r)
    = fine_volume (breakdown r) * fine_cost_per_mm3.
Proof. quote_field. Qed.

(** C7: the total of a quote is its per-unit cost times the quantity, as
    the very product the code stores. *)
Theorem C7_total_cost_is_per_unit_times_quantity
    (mesh : Mesh) (quantity : Z) (expedited : option string)
    (r : QuoteResult) :
  calculate_costs mesh quantity expedited = Return r ->
  total_cost r = per_unit_cost r * inject_Z quantity.
Proof.
  intros H. apply calculate_costs_Return in H as (b & _ & _ & ->).
  apply quote_total_cost.
Qed.

(** ** Expedited tiers *)

Lemma expedited_config_Some (expedited : option string)
    (c : ExpeditedOption) :
  expedited_config expedited = Some c ->
  (expedited = Some "5_days" /\ multiplier c = 1.3) \/
  (expedited = Some "4_days" /\ multiplier c = 1.6) \/
  (expedited = Some "3_days" /\ multiplier c = 2.0).
Proof.
  unfold expedited_config. destruct expedited as [s |]; [| discriminate].
  destruct (String.eqb s ""); [discriminate |].
  unfold expedited_options.
  rewrite !lookup_insert_Some, lookup_empty.
  intros [[<- <-] | [_ [[<- <-] | [_ [[<- <-] | [_ H]]]]]];
    [auto | auto | auto | discriminate].
Qed.

Lemma expedited_config_unknown (expedited : option string) :
  expedited <> Some "5_days" -> expedited <> Some "4_days" ->
  expedited <> Some "3_days" -> expedited_config expedited = None.
Proof.
  intros H5 H4 H3.
  destruct (expedited_config expedited) as [c |] eqn:E; [| reflexivity].
  apply expedited_config_Some in E.
  destruct E as [[E _] | [[E _] | [E _]]]; congruence.
Qed.

Lemma expedited_config_known (s : string) :
  s = "5_days" \/ s = "4_days" \/ s = "3_days" ->
  exists c, expedited_config (Some s) = Some c.
Proof. intros [-> | [-> | ->]]; eexists; vm_compute; reflexivity. Qed.

Lemma floored_ge (cost : Q) : 200 <= floored cost.
Proof.
  unfold floored, min_price_per_part.
  case_ltb cost 200; lra.
Qed.

(** C4: whenever a block of the catalog fits the part, a quote is returned
    and its per-unit cost is at least 200: the composite cost scaled by the
    quantity multiplier is raised to the floor first, and the expedited
    multiplier applied afterwards is at least 1. *)
Theorem C4_per_unit_cost_at_least_200
    (mesh : Mesh) (quantity : Z) (expedited : option string)
    (block : list Z) :
  block_fits (dimensions_of mesh) block ->
  exists r,
    calculate_costs mesh quantity expedited = Return r /\
    200 <= floored (composite_cost r) /\
    1 <= expedited_multiplier r /\
    per_unit_cost r == floored (composite_cost r) * expedited_multiplier r /\
    200 <= per_unit_cost r.
Proof.
  intros Hfit.
  destruct (find_smallest_fitting_block (dimensions_of mesh)) as [b |] eqn:E;
    [| rewrite find_smallest_fitting_block_None in E; elim (E _ Hfit)].
  exists (quote_for_block mesh quantity expedited b).
  split; [apply calculate_costs_total, E |].
  pose proof (floored_ge
                (composite_cost (quote_for_block mesh quantity expedited b)))
    as Hfloor.
  rewrite quote_per_unit_cost, quote_expedited_multiplier.
  destruct (expedited_config expedited) as [c |] eqn:Ec.
  - assert (Hc : 1 <= multiplier c).
    { apply expedited_config_Some in Ec.
      destruct Ec as [[_ ->] | [[_ ->] | [_ ->]]]; lra. }
    repeat split; try assumption; try reflexivity.
    nra.
  - repeat split; try assumption; lra.
Qed.

(** C6: an expedited tier pins the lead time to its number of days whatever
    the complexity score is; any other value of [expedited] leaves the
    quote without a price multiplier and with the standard lead time of its
    score, and the quote is returned all the same. *)
Theorem C6_expedited_tiers_and_unknown_strings
    (mesh : Mesh) (quantity : Z) (expedited : option string)
    (block : list Z) :
  block_fits (dimensions_of mesh) block ->
  exists r,
    calculate_costs mesh quantity expedited = Return r /\
    (expedited = Some "3_days" -> lead_time_days r = 3%Z) /\
    (expedited = Some "4_days" -> lead_time_days r = 4%Z) /\
    (expedited = Some "5_days" -> lead_time_days r = 5%Z) /\
    (expedited <> Some "5_days" -> expedited <> Some "4_days" ->
     expedited <> Some "3_days" ->
     expedited_multiplier r = 1.0 /\
     per_unit_cost r = floored (composite_cost r) /\
     lead_time_days r = standard_lead_time (complexity_score r) /\
     standard_lead_time (complexity_score r)
     = (if Py.ltb (complexity_score r) 5 then 7
        else if Py.ltb (complexity_score r) 8 then 10 else 11)%Z).
Proof.
  intros Hfit.
  destruct (find_smallest_fitting_block (dimensions_of mesh)) as [b |] eqn:E;
    [| rewrite find_smallest_fitting_block_None in E; elim (E _ Hfit)].
  exists (quote_for_block mesh quantity expedited b).
  split; [apply calculate_costs_total, E |].
  rewrite quote_per_unit_cost, quote_expedited_multiplier,
    quote_lead_time_days.
  repeat split.
  - intros ->. reflexivity.
  - intros ->. reflexivity.
  - intros ->. reflexivity.
  - rewrite expedited_config_unknown by assumption. reflexivity.
  - rewrite expedited_config_unknown by assumption. reflexivity.
  - rewrite expedited_config_unknown by assumption. reflexivity.
Qed.

(** ** Milling volumes *)

Lemma max_zero_nonneg (x : Q) : 0 <= x -> Py.max 0 x == x.
Proof. intros H. destruct (max_spec 0 x) as [[_ ->] | [H' ->]]; lra. Qed.

Lemma max_zero_nonpos (x : Q) : x <= 0 -> Py.max 0 x = 0.
Proof. intros H. unfold Py.max. case_ltb 0 x; [lra | reflexivity]. Qed.

Lemma max_zero_ge (x : Q) : 0 <= Py.max 0 x.
Proof. apply max_lower. Qed.

(** C9: the shrink-wrap volume is 0.8 times the volume of the convex hull,
    so the medium phase removes 0.2 times the hull (the value before the
    clamp, which is never negative), and the fine phase removes nothing and
    costs nothing once the part fills 0.8 of its hull. *)
Theorem C9_medium_and_fine_volumes
    (mesh : Mesh) (quantity : Z) (expedited : option string)
    (r : QuoteResult) :
  calculate_costs mesh quantity expedited = Return r ->
  let volumes := calculate_volumes mesh in
  v_shrink_wrap_volume volumes == 0.8 * v_convex_hull_volume volumes /\
  medium_volume (breakdown r)
  == v_convex_hull_volume volumes - v_shrink_wrap_volume volumes /\
  medium_volume (breakdown r) == 0.2 * v_convex_hull_volume volumes /\
  (0.8 * v_convex_hull_volume volumes <= v_part_volume volumes ->
   fine_volume (breakdown r) = 0 /\
   fine_milling_cost (breakdown r) == 0).
Proof.
  intros H. apply calculate_costs_Return in H as (b & _ & _ & ->).
  destruct (quote_milling mesh quantity expedited b)
    as (_ & _ & Hm & Hf & _ & _ & Hfc).
  cbv zeta in *. rewrite Hfc, Hm, Hf.
  cbn [calculate_volumes v_shrink_wrap_volume v_convex_hull_volume
       v_part_volume].
  pose proof (Qabs_nonneg (convex_hull_volume mesh)) as Hhull.
  set (hull := Qabs (convex_hull_volume mesh)) in *.
  assert (Hmed : Py.max 0 (hull - hull * 0.8) == hull - hull * 0.8)
    by (apply max_zero_nonneg; lra).
  repeat split.
  - lra.
  - exact Hmed.
  - rewrite Hmed. lra.
  - apply max_zero_nonpos. lra.
  - rewrite max_zero_nonpos by lra. lra.
Qed.

(** ** Calibration multipliers *)

Lemma complexity_multiplier_cases (score : Q) :
  let m := default 1.0 (complexity_calibration
                          !! get_complexity_category score) in
  (score < 4 /\ m = 0.85) \/ (4 <= score < 6 /\ m = 1.0)
  \/ (6 <= score /\ m = 1.35).
Proof.
  unfold get_complexity_category.
  case_ltb score 4.0; [left; split; [lra | vm_compute; reflexivity] |].
  case_ltb score 6.0; right; [left | right];
    (split; [lra | vm_compute; reflexivity]).
Qed.

Lemma size_multiplier_cases (length : Q) :
  let m := default 1.0 (size_calibration !! get_size_category length) in
  (length < 50 /\ m = 1.15) \/ (50 <= length < 200 /\ m = 1.0)
  \/ (200 <= length /\ m = 0.9).
Proof.
  unfold get_size_category.
  case_ltb length 50; [left; split; [lra | vm_compute; reflexivity] |].
  case_ltb length 200; right; [left | right];
    (split; [lra | vm_compute; reflexivity]).
Qed.

Lemma milling_costs_positive (mesh : Mesh) (quantity : Z)
    (expedited : option string) (block : list Z) :
  In block block_sizes ->
  0 < milling_costs (quote_for_block mesh quantity expedited block).
Proof.
  intros Hin. unfold milling_costs.
  destruct (quote_milling mesh quantity expedited block)
    as (_ & Hc & Hm & Hf & Hcc & Hmc & Hfc).
  cbv zeta in *. rewrite Hcc, Hmc, Hfc, Hc, Hm, Hf.
  pose proof (Qabs_nonneg (convex_hull_volume mesh)) as Hhull.
  set (hull := Qabs (convex_hull_volume mesh)) in *.
  apply block_sizes_positive in Hin.
  assert (Hb : 0 < inject_Z (volume_of block)).
  { replace 0 with (inject_Z 0) by reflexivity. rewrite <- Zlt_Qlt.
    exact Hin. }
  pose proof (max_zero_ge (hull * 0.8 - Qabs (volume mesh))) as Hfine.
  pose proof (max_zero_ge (inject_Z (volume_of block) - hull)) as Hcoarse.
  pose proof (max_lower 0 (hull - hull * 0.8)) as Hmed0.
  unfold coarse_cost_per_mm3, medium_cost_per_mm3, fine_cost_per_mm3.
  destruct (Qlt_le_dec 0 hull) as [Hpos | Hzero].
  - assert (Hmed : Py.max 0 (hull - hull * 0.8) == hull - hull * 0.8)
      by (apply max_zero_nonneg; lra).
    rewrite Hmed. lra.
  - assert (Hco : Py.max 0 (inject_Z (volume_of block) - hull)
                  == inject_Z (volume_of block) - hull)
      by (apply max_zero_nonneg; lra).
    rewrite Hco. lra.
Qed.

(** C10: the machine time cost of a quote is the sum of the three milling
    costs of its breakdown times the complexity and size multipliers; the
    costs of the breakdown are the phase volumes times the unit costs, before
    any multiplier.  The sum is positive, so it equals the machine time cost
    exactly when both multipliers are 1. *)
Theorem C10_machine_time_cost_versus_breakdown
    (mesh : Mesh) (quantity : Z) (expedited : option string)
    (r : QuoteResult) :
  calculate_costs mesh quantity expedited = Return r ->
  machine_time_cost r
  = (coarse_milling_cost (breakdown r) + medium_milling_cost (breakdown r)
     + fine_milling_cost (breakdown r))
    * complexity_multiplier (breakdown r) * size_multiplier (breakdown r) /\
  coarse_milling_cost (breakdown r)
  = coarse_volume (breakdown r) * coarse_cost_per_mm3 /\
  medium_milling_cost (breakdown r)
  = medium_volume (breakdown r) * medium_cost_per_mm3 /\
  fine_milling_cost (breakdown r)
  = fine_volume (breakdown r) * fine_cost_per_mm3 /\
  (coarse_milling_cost (breakdown r) + medium_milling_cost (breakdown r)
   + fine_milling_cost (breakdown r) == machine_time_cost r
   <-> complexity_multiplier (breakdown r) == 1 /\
       size_multiplier (breakdown r) == 1).
Proof.
  intros H. apply calculate_costs_Return in H as (b & _ & [Hin _] & ->).
  pose proof (milling_costs_positive mesh quantity expedited b Hin) as Hpos.
  destruct (quote_milling mesh quantity expedited b)
    as (_ & _ & _ & _ & Hcc & Hmc & Hfc).
  destruct (quote_multipliers mesh quantity expedited b)
    as (Hcm & Hsm & _).
  cbv zeta in *.
  split; [exact (quote_machine_time_cost mesh quantity expedited b) |].
  split; [exact Hcc |]. split; [exact Hmc |]. split; [exact Hfc |].
  rewrite quote_machine_time_cost. unfold milling_costs in *.
  rewrite Hcm, Hsm.
  destruct (complexity_multiplier_cases (calculate_complexity_score mesh))
    as [[_ Ec] | [[_ Ec] | [_ Ec]]];
  destruct (size_multiplier_cases (length (get_bounding_box mesh)))
    as [[_ Es] | [[_ Es] | [_ Es]]];
  cbv zeta in Ec, Es; rewrite Ec, Es;
  (split; [intros Heq; split; lra | intros [Hc Hs]; lra]).
Qed.

(** ** Size multiplier *)

Lemma get_bounding_box_length (mesh : Mesh) :
  let bb := get_bounding_box mesh in
  length bb = x_max bb - x_min bb /\
  width bb = y_max bb - y_min bb /\
  height bb = z_max bb - z_min bb.
Proof.
  unfold get_bounding_box.
  destruct (bounds_min mesh) as [[x0 y0] z0].
  destruct (bounds_max mesh) as [[x1 y1] z1].
  repeat split.
Qed.

(** C2, as the code has it: the size multiplier applied to the machine time
    cost is read off the [length] entry of the bounding box, which is the
    extent of the part along the x axis, not off its longest edge.  It is
    1.15 below 50 mm, 0.9 from 200 mm on, 1.0 in between. *)
Theorem C2_size_multiplier_keyed_off_length
    (mesh : Mesh) (quantity : Z) (expedited : option string)
    (r : QuoteResult) :
  calculate_costs mesh quantity expedited = Return r ->
  let bb := bounding_box r in
  length bb = x_max bb - x_min bb /\
  (length bb < 50 -> size_multiplier (breakdown r) = 1.15) /\
  (50 <= length bb < 200 -> size_multiplier (breakdown r) = 1.0) /\
  (200 <= length bb -> size_multiplier (breakdown r) = 0.9) /\
  machine_time_cost r
  = milling_costs r * complexity_multiplier (breakdown r)
    * size_multiplier (breakdown r).
Proof.
  intros H. apply calculate_costs_Return in H as (b & _ & _ & ->).
  destruct (quote_multipliers mesh quantity expedited b)
    as (_ & Hsm & _ & _ & Hbb).
  cbv zeta in *. rewrite Hbb, Hsm.
  split; [apply get_bounding_box_length |].
  destruct (size_multiplier_cases (length (get_bounding_box mesh)))
    as [[Hl Es] | [[Hl Es] | [Hl Es]]];
    cbv zeta in Es; rewrite Es;
    (repeat split; [intros; try reflexivity; lra ..
                   | rewrite <- Es, <- Hsm;
                     exact (quote_machine_time_cost mesh quantity expedited b)]).
Qed.

(** C2 as it is worded fails on a bar that lies along the y axis: its
    longest edge is 300 mm, for which the claim announces 0.9, but its
    extent along x is 10 mm and the code applies 1.15. *)
Lemma C2_counterexample_bar_along_y :
  exists r,
    calculate_costs bar_along_y 1 None = Return r /\
    longest_edge (bounding_box r) == 300 /\
    size_multiplier_by_longest_edge (bounding_box r) == 0.9 /\
    size_multiplier (breakdown r) == 1.15 /\
    ~ size_multiplier (breakdown r)
      == size_multiplier_by_longest_edge (bounding_box r).
Proof.
  exists (quote_for_block bar_along_y 1 None [300; 250; 250]%Z).
  split; [vm_compute; reflexivity |].
  split; [vm_compute; reflexivity |].
  split; [vm_compute; reflexivity |].
  split; [vm_compute; reflexivity |].
  intros H. vm_compute in H. discriminate H.
Qed.

Lemma C2_witness_plate :
  calculate_costs plate 1 None
  = Return (quote_for_block plate 1 None [100; 100; 100]%Z) /\
  let r := quote_for_block plate 1 None [100; 100; 100]%Z in
  let bb := bounding_box r in
  length bb = x_max bb - x_min bb /\
  (length bb < 50 -> size_multiplier (breakdown r) = 1.15) /\
  (50 <= length bb < 200 -> size_multiplier (breakdown r) = 1.0) /\
  (200 <= length bb -> size_multiplier (breakdown r) = 0.9) /\
  machine_time_cost r
  = milling_costs r * complexity_multiplier (breakdown r)
    * size_multiplier (breakdown r).
Proof.
  split; [vm_compute; reflexivity |].
  apply (C2_size_multiplier_keyed_off_length plate 1 None).
  vm_compute; reflexivity.
Defined.

Lemma C4_witness_plate :
  block_fits (dimensions_of plate) [100; 100; 100]%Z /\
  exists r,
    calculate_costs plate 1 None = Return r /\
    200 <= floored (composite_cost r) /\
    1 <= expedited_multiplier r /\
    per_unit_cost r == floored (composite_cost r) * expedited_multiplier r /\
    200 <= per_unit_cost r.
Proof.
  assert (H : block_fits (dimensions_of plate) [100; 100; 100]%Z).
  { split; [simpl; tauto | vm_compute; reflexivity]. }
  split; [exact H |].
  apply (C4_per_unit_cost_at_least_200 plate 1 None [100; 100; 100]%Z H).
Defined.

Lemma C6_witness_plate_in_three_days :
  block_fits (dimensions_of plate) [100; 100; 100]%Z /\
  exists r,
    calculate_costs plate 2 (Some "3_days") = Return r /\
    lead_time_days r = 3%Z.
Proof.
  assert (H : block_fits (dimensions_of plate) [100; 100; 100]%Z).
  { split; [simpl; tauto | vm_compute; reflexivity]. }
  split; [exact H |].
  destruct (C6_expedited_tiers_and_unknown_strings
              plate 2 (Some "3_days") [100; 100; 100]%Z H)
    as (r & Hr & H3 & _).
  exists r. split; [exact Hr | apply H3; reflexivity].
Defined.

Lemma C7_witness_plate :
  calculate_costs plate 3 None
  = Return (quote_for_block plate 3 None [100; 100; 100]%Z) /\
  total_cost (quote_for_block plate 3 None [100; 100; 100]%Z)
  = per_unit_cost (quote_for_block plate 3 None [100; 100; 100]%Z)
    * inject_Z 3.
Proof.
  split; [vm_compute; reflexivity |].
  apply (C7_total_cost_is_per_unit_times_quantity plate 3 None).
  vm_compute; reflexivity.
Defined.

Lemma C9_witness_plate :
  calculate_costs plate 1 None
  = Return (quote_for_block plate 1 None [100; 100; 100]%Z) /\
  medium_volume (breakdown (quote_for_block plate 1 None [100; 100; 100]%Z))
  == 0.2 * v_convex_hull_volume (calculate_volumes plate) /\
  fine_volume (breakdown (quote_for_block plate 1 None [100; 100; 100]%Z))
  = 0.
Proof.
  split; [vm_compute; reflexivity |].
  destruct (C9_medium_and_fine_volumes plate 1 None
              (quote_for_block plate 1 None [100; 100; 100]%Z))
    as (_ & _ & Hm & Hf); [vm_compute; reflexivity |].
  split; [exact Hm |].
  apply Hf. vm_compute. discriminate.
Defined.

Lemma C10_witness_plate :
  calculate_costs plate 1 None
  = Return (quote_for_block plate 1 None [100; 100; 100]%Z) /\
  machine_time_cost (quote_for_block plate 1 None [100; 100; 100]%Z)
  = milling_costs (quote_for_block plate 1 None [100; 100; 100]%Z)
    * complexity_multiplier
        (breakdown (quote_for_block plate 1 None [100; 100; 100]%Z))
    * size_multiplier
        (breakdown (quote_for_block plate 1 None [100; 100; 100]%Z)).
Proof.
  split; [vm_compute; reflexivity |].
  apply (C10_machine_time_cost_versus_breakdown plate 1 None).
  vm_compute; reflexivity.
Defined.

(** ** Complexity *)

Lemma inject_Z_nonneg (n : Z) : (0 <= n)%Z -> 0 <= inject_Z n.
Proof.
  intros H. replace 0 with (inject_Z 0) by reflexivity.
  rewrite <- Zle_Qle. exact H.
Qed.

Lemma Qdiv_nonneg (a b : Q) : 0 <= a -> 0 < b -> 0 <= a / b.
Proof. intros Ha Hb. apply Qle_shift_div_l; [exact Hb | lra]. Qed.

Lemma detect_features_nonneg (mesh : Mesh) :
  let f := detect_features mesh in
  (0 <= holes f)%Z /\ (0 <= cavities f)%Z /\ (0 <= sharp_edges f)%Z /\
  (0 <= pockets f)%Z /\ 0 <= feature_score f.
Proof.
  unfold detect_features.
  set (ratio := if Py.ltb 0 (Qabs (volume mesh)) then _ else _).
  set (features := if Py.ltb 0.15 ratio then _ else _).
  assert (Hholes : (0 <= holes features)%Z).
  { unfold features. destruct (Py.ltb 0.15 ratio); cbn; lia. }
  cbv zeta. cbn [holes cavities sharp_edges pockets feature_score].
  set (cav := match Py.div _ _ with Some _ => _ | None => _ end).
  set (sharp := if Py.ltb 3.0 _ then _ else _).
  set (pock := if (2000 <? _)%Z then _ else _).
  assert (Hcav : (0 <= cav)%Z).
  { unfold cav. destruct (Py.div _ _); [| lia].
    destruct (Py.ltb 0.2 _); lia. }
  assert (Hsharp : (0 <= sharp)%Z)
    by (unfold sharp; destruct (Py.ltb 3.0 _); lia).
  assert (Hpock : (0 <= pock)%Z).
  { unfold pock. destruct (2000 <? _)%Z; [lia |].
    destruct (1000 <? _)%Z; lia. }
  repeat split; try assumption.
  apply inject_Z_nonneg in Hholes, Hcav, Hsharp, Hpock. lra.
Qed.

Lemma get_complexity_category_spec (score : Q) :
  (get_complexity_category score = "low" <-> score < 4) /\
  (get_complexity_category score = "medium" <-> 4 <= score < 6) /\
  (get_complexity_category score = "high" <-> 6 <= score).
Proof.
  unfold get_complexity_category.
  case_ltb score 4.0; [| case_ltb score 6.0];
    (repeat split; intros; try discriminate; try reflexivity; lra).
Qed.

Lemma capped_term (x cap : Q) : 0 <= x -> 0 <= cap -> 0 <= Py.min x cap <= cap.
Proof.
  intros Hx Hcap. split; [apply min_lower; assumption | apply min_upper].
Qed.

(** C8: on a mesh of non-negative area the complexity score is the sum,
    capped at 8, of four terms that lie in [0, 3], [0, 4], [0, 3] and
    [0, 2]; it lies in [0, 8].  The category is low below 4, medium from 4
    and below 6, high from 6 on. *)
Theorem C8_score_in_0_8_and_category_boundaries (mesh : Mesh) :
  0 <= area mesh ->
  (exists sa face edge feature,
      0 <= sa <= 3 /\ 0 <= face <= 4 /\ 0 <= edge <= 3 /\
      0 <= feature <= 2 /\
      calculate_complexity_score mesh
      = Py.min (sa + face + edge + feature) 8.0) /\
  0 <= calculate_complexity_score mesh <= 8 /\
  forall score,
    (get_complexity_category score = "low" <-> score < 4) /\
    (get_complexity_category score = "medium" <-> 4 <= score < 6) /\
    (get_complexity_category score = "high" <-> 6 <= score).
Proof.
  intros Harea.
  assert (Hterms : exists sa face edge feature,
      0 <= sa <= 3 /\ 0 <= face <= 4 /\ 0 <= edge <= 3 /\
      0 <= feature <= 2 /\
      calculate_complexity_score mesh
      = Py.min (sa + face + edge + feature) 8.0).
  { unfold calculate_complexity_score.
    do 4 eexists. repeat apply conj; [.. | reflexivity].
    - apply min_lower; [| lra].
      case_ltb 0 (Qabs (volume mesh)); [| lra].
      pose proof (Qdiv_nonneg _ _ Harea E). lra.
    - eapply Qle_trans; [apply min_upper | lra].
    - apply min_lower; [| lra].
      pose proof (inject_Z_nonneg (Z.of_N (faces mesh)) ltac:(lia)).
      pose proof (Qdiv_nonneg (inject_Z (Z.of_N (faces mesh))) 1000
                    ltac:(assumption) ltac:(lra)). lra.
    - eapply Qle_trans; [apply min_upper | lra].
    - apply min_lower; [| lra].
      pose proof (inject_Z_nonneg (Z.of_N (edges mesh)) ltac:(lia)).
      pose proof (Qdiv_nonneg (inject_Z (Z.of_N (edges mesh))) 1000
                    ltac:(assumption) ltac:(lra)). lra.
    - eapply Qle_trans; [apply min_upper | lra].
    - apply min_lower; [| lra].
      pose proof (detect_features_nonneg mesh) as (_ & _ & _ & _ & Hf).
      lra.
    - eapply Qle_trans; [apply min_upper | lra]. }
  split; [exact Hterms |].
  split; [| apply get_complexity_category_spec].
  destruct Hterms as (sa & face & edge & feature & H1 & H2 & H3 & H4 & ->).
  split; [apply min_lower; lra |].
  eapply Qle_trans; [apply min_upper | lra].
Qed.

Lemma C8_witness_plate :
  0 <= area plate /\ 0 <= calculate_complexity_score plate <= 8.
Proof.
  assert (H : 0 <= area plate) by (vm_compute; discriminate).
  split; [exact H |].
  apply (C8_score_in_0_8_and_category_boundaries plate H).
Defined.

(** ** Feature counts *)

Lemma Qabs_pos_eq (x : Q) : 0 < x -> Qabs x = x.
Proof.
  destruct x as [n d]. unfold Qlt, Qabs. cbn. intros H.
  f_equal. apply Z.abs_eq. lia.
Qed.

Lemma div_Some (a b : Q) : 0 < b -> Py.div a b = Some (a / b).
Proof.
  intros H. unfold Py.div.
  destruct (Qeq_bool b 0) eqn:E; [| reflexivity].
  apply Qeq_bool_iff in E. lra.
Qed.

(** C3, as the code has it: on a mesh of positive volume that does not
    exceed the volume of its convex hull, with at least one face, the four
    feature counts are the clamped formulas of the claim with the ratios
    truncated ([int]) instead of rounded. *)
Theorem C3_feature_counts_truncate (mesh : Mesh) :
  0 < volume mesh -> volume mesh <= convex_hull_volume mesh ->
  (0 < faces mesh)%N ->
  holes (detect_features mesh) = holes_with Py.int mesh /\
  cavities (detect_features mesh) = cavities_with Py.int mesh /\
  sharp_edges (detect_features mesh) = sharp_edges_with Py.int mesh /\
  pockets (detect_features mesh) = pockets_with Py.int mesh.
Proof.
  intros Hvol Hhull Hfaces.
  unfold detect_features, holes_with, cavities_with, sharp_edges_with,
    pockets_with, clamp.
  rewrite (Qabs_pos_eq (volume mesh)) by exact Hvol.
  rewrite (Qabs_pos_eq (convex_hull_volume mesh)) by lra.
  rewrite div_Some by lra.
  apply ltb_lt in Hvol. rewrite Hvol.
  apply N.ltb_lt in Hfaces. rewrite Hfaces.
  cbv zeta. cbn [holes cavities sharp_edges pockets].
  repeat split.
  destruct (Py.ltb 0.15 (area mesh / volume mesh)); reflexivity.
Qed.

(** C3 as it is worded fails on a plate meshed with 2600 faces: 2.6 rounds
    to 3 pockets, the code counts [int(2.6)], which is 2. *)
Lemma C3_counterexample_fine_plate :
  0 < volume fine_plate /\ (0 < faces fine_plate)%N /\
  pockets_with Py.round fine_plate = 3%Z /\
  pockets (detect_features fine_plate) = 2%Z /\
  pockets (detect_features fine_plate) <> pockets_with Py.round fine_plate.
Proof.
  repeat split; try (vm_compute; reflexivity).
  vm_compute. discriminate.
Qed.

Lemma C3_witness_fine_plate :
  (0 < volume fine_plate /\
   volume fine_plate <= convex_hull_volume fine_plate /\
   (0 < faces fine_plate)%N) /\
  pockets (detect_features fine_plate) = pockets_with Py.int fine_plate.
Proof.
  assert (H1 : 0 < volume fine_plate) by (vm_compute; reflexivity).
  assert (H2 : volume fine_plate <= convex_hull_volume fine_plate)
    by (vm_compute; discriminate).
  assert (H3 : (0 < faces fine_plate)%N) by (vm_compute; reflexivity).
  split; [auto |].
  apply (C3_feature_counts_truncate fine_plate H1 H2 H3).
Defined.

(** ** Sorting and the fitting test *)

Section SortedFacts.
Context {A : Type} (le : A -> A -> bool) (R : A -> A -> Prop).
Hypothesis le_true : forall a b, le a b = true -> R a b.
Hypothesis le_false : forall a b, le a b = false -> R b a.

Lemma insert_sorted_length (x : A) (l : list A) :
  List.length (Py.insert_sorted le x l) = S (List.length l).
Proof.
  induction l as [| y t IH]; cbn; [reflexivity |].
  destruct (le x y); cbn; [reflexivity | rewrite IH; reflexivity].
Qed.

Lemma sorted_length (l : list A) :
  List.length (Py.sorted le l) = List.length l.
Proof.
  induction l as [| x t IH]; cbn; [reflexivity |].
  rewrite insert_sorted_length, IH. reflexivity.
Qed.

Lemma insert_sorted_perm (x : A) (l : list A) :
  Permutation (x :: l) (Py.insert_sorted le x l).
Proof.
  induction l as [| y t IH]; cbn; [reflexivity |].
  destruct (le x y); [reflexivity |].
  rewrite perm_swap. apply perm_skip, IH.
Qed.

Lemma sorted_perm (l : list A) : Permutation l (Py.sorted le l).
Proof.
  induction l as [| x t IH]; cbn; [reflexivity |].
  rewrite <- insert_sorted_perm. apply perm_skip, IH.
Qed.

Lemma insert_sorted_ascending (x : A) (l : list A) :
  Sorted R l -> Sorted R (Py.insert_sorted le x l).
Proof.
  induction l as [| y t IH]; intros Hs; cbn.
  - repeat constructor.
  - destruct (le x y) eqn:E.
    + constructor; [exact Hs | constructor; apply le_true, E].
    + apply Sorted_inv in Hs. destruct Hs as [Hs Hhd].
      constructor; [apply IH, Hs |].
      destruct t as [| z t']; cbn.
      * constructor. apply le_false, E.
      * destruct (le x z); constructor.
        -- apply le_false, E.
        -- apply HdRel_inv in Hhd. exact Hhd.
Qed.

Lemma sorted_ascending (l : list A) : Sorted R (Py.sorted le l).
Proof.
  induction l as [| x t IH]; cbn; [constructor |].
  apply insert_sorted_ascending, IH.
Qed.
End SortedFacts.

(** [sorted] puts the dimensions of a part in ascending order. *)
Lemma sorted_dimensions_ascending (dimensions : list Q) :
  Sorted Qle (Py.sorted Py.leb dimensions) /\
  Permutation dimensions (Py.sorted Py.leb dimensions).
Proof.
  split; [| apply sorted_perm].
  apply sorted_ascending.
  - intros a b. apply leb_le.
  - intros a b H. apply leb_gt in H. lra.
Qed.

Lemma all_le_Forall2 (ds bs : list Q) :
  List.length ds = List.length bs ->
  Py.all_le ds bs = true <-> Forall2 Qle ds bs.
Proof.
  revert bs. induction ds as [| d ds IH]; intros [| b bs] Hlen;
    try discriminate.
  - split; [constructor | reflexivity].
  - unfold Py.all_le in *. cbn. rewrite andb_true_iff, leb_le.
    injection Hlen as Hlen. rewrite (IH bs Hlen). split.
    + intros [H1 H2]. constructor; assumption.
    + intros H. apply Forall2_cons_1 in H. exact H.
Qed.

Lemma block_sizes_length (block : list Z) :
  In block block_sizes -> List.length block = 3%nat.
Proof.
  intros H. cbn in H.
  repeat (destruct H as [<- | H]; [reflexivity |]). contradiction.
Qed.

(** On three dimensions the test of the code is domination. *)
Lemma block_fits_fitting_block (l w h : Q) (block : list Z) :
  block_fits [l; w; h] block <-> fitting_block [l; w; h] block.
Proof.
  unfold block_fits, fitting_block, fits, dominates.
  split; intros [Hin H]; (split; [exact Hin |]);
    apply all_le_Forall2 in H; try exact H;
    rewrite length_map, !sorted_length, (block_sizes_length _ Hin);
    reflexivity.
Qed.

Lemma dimensions_of_triple (mesh : Mesh) :
  exists l w h, dimensions_of mesh = [l; w; h].
Proof. unfold dimensions_of. eauto. Qed.




(** ** The examples of the specification *)

Example cube_40_gets_the_50_block :
  find_smallest_fitting_block [40; 40; 40] = Some [50; 50; 50]%Z.
Proof. vm_compute. reflexivity. Qed.

Example oversized_part_is_refused :
  calculate_costs
    {| bounds_min := (0, 0, 0); bounds_max := (601, 10, 10);
       volume := 60100; area := 24240; convex_hull_volume := 60100;
       faces := 12; edges := 36 |} 1 None
  = Raise too_large.
Proof. vm_compute. reflexivity. Qed.

Example plate_quote :
  exists r,
    calculate_costs plate 1 None = Return r /\
    block_size (breakdown r) = [100; 100; 100]%Z /\
    material_cost r == 2.025 /\
    per_unit_cost r == 200 /\
    total_cost r == 200 /\
    lead_time_days r = 7%Z.
Proof.
  exists (quote_for_block plate 1 None [100; 100; 100]%Z).
  repeat split; vm_compute; reflexivity.
Qed.

Example plate_quote_in_three_days :
  exists r,
    calculate_costs plate 1 (Some "3_days") = Return r /\
    per_unit_cost r == 400 /\
    total_cost r == 400 /\
    lead_time_days r = 3%Z.
Proof.
  exists (quote_for_block plate 1 (Some "3_days") [100; 100; 100]%Z).
  repeat split; vm_compute; reflexivity.
Qed.

(** * Further properties of the engine *)

(** ** Quantity discount *)

(** X1: whatever the quantity (zero and negative ones included), the
    quantity multiplier lies between the last control point's 0.72 and the
    first one's 1. *)
Theorem X1_quantity_multiplier_range (quantity : Z) :
  0.72 <= get_quantity_multiplier quantity <= 1.
Proof. apply get_quantity_multiplier_bounds. Qed.

(** X2: the multiplier never increases from a quantity to a larger one as
    long as neither lies strictly between 100 and 5000. *)
Theorem X2_quantity_multiplier_monotone_outside_gap (a b : Z) :
  (a <= b)%Z -> (a <= 100 \/ 5000 <= a)%Z -> (b <= 100 \/ 5000 <= b)%Z ->
  get_quantity_multiplier b <= get_quantity_multiplier a.
Proof. apply get_quantity_multiplier_mono_outside_gap. Qed.

Lemma X2_witness_3_and_50 :
  get_quantity_multiplier 50 <= get_quantity_multiplier 3.
Proof.
  apply (X2_quantity_multiplier_monotone_outside_gap 3 50); lia.
Defined.

(** X3: at each control point the multiplier is the tabulated one, and
    between two adjacent control points it is their linear interpolation. *)
Theorem X3_quantity_multiplier_table (s : (Z * Q) * (Z * Q)) (q : Z) :
  In s segments -> (fst (fst s) <= q <= fst (snd s))%Z ->
  get_quantity_multiplier (fst (fst s)) == snd (fst s) /\
  get_quantity_multiplier (fst (snd s)) == snd (snd s) /\
  get_quantity_multiplier q
  == snd (fst s)
     + (snd (snd s) - snd (fst s))
       * (inject_Z (q - fst (fst s))
          / inject_Z (fst (snd s) - fst (fst s))).
Proof.
  intros Hs Hq. repeat apply conj.
  - cbn in Hs. repeat (destruct Hs as [<- | Hs]; [reflexivity |]).
    contradiction.
  - cbn in Hs. repeat (destruct Hs as [<- | Hs]; [reflexivity |]).
    contradiction.
  - rewrite (get_quantity_multiplier_interpolates s q Hs Hq).
    destruct s as [[lq lm] [uq um]]. reflexivity.
Qed.

Lemma X3_witness_7_between_5_and_10 :
  get_quantity_multiplier 7
  == 0.88 + (0.85 - 0.88) * (inject_Z (7 - 5) / inject_Z (10 - 5)).
Proof.
  apply (X3_quantity_multiplier_table ((5%Z, 0.88), (10%Z, 0.85)) 7).
  - simpl. tauto.
  - simpl. lia.
Defined.

Lemma get_quantity_multiplier_discounted (q : Z) :
  get_quantity_multiplier q < 1 <-> (2 <= q <= 100 \/ 5000 <= q)%Z.
Proof.
  split.
  - intros H.
    destruct (Z.lt_ge_cases q 1) as [H1 | H1].
    { rewrite get_quantity_multiplier_below in H by exact H1. lra. }
    destruct (Z.eq_dec q 1%Z) as [-> | Hne].
    { vm_compute in H. discriminate. }
    destruct (Z.le_gt_cases q 100) as [H100 | H100]; [lia |].
    destruct (Z.lt_ge_cases q 5000) as [H5000 | H5000]; [| lia].
    rewrite get_quantity_multiplier_gap in H by lia. lra.
  - intros [[H2 H100] | H].
    + pose proof (get_quantity_multiplier_table_mono 2 q
                    ltac:(lia) ltac:(lia)) as Hm.
      assert (E : get_quantity_multiplier 2 == 0.95) by reflexivity.
      lra.
    + rewrite get_quantity_multiplier_bulk by exact H. lra.
Qed.

(** X4: the discount percentage is (1 - multiplier) x 100; it lies between
    0 and 28, and it is 0 exactly for quantities up to 1 and for the
    quantities from 101 to 4999. *)
Theorem X4_discount_percentage (quantity : Z) :
  get_quantity_discount_percentage quantity
  == (1 - get_quantity_multiplier quantity) * 100 /\
  0 <= get_quantity_discount_percentage quantity <= 28 /\
  (get_quantity_discount_percentage quantity == 0
   <-> (quantity <= 1 \/ 100 < quantity < 5000)%Z).
Proof.
  pose proof (get_quantity_multiplier_bounds quantity) as [Hlo Hhi].
  pose proof (get_quantity_multiplier_discounted quantity) as Hd.
  unfold get_quantity_discount_percentage. cbv zeta.
  case_ltb (get_quantity_multiplier quantity) 1.0.
  - assert (Hq : (2 <= quantity <= 100 \/ 5000 <= quantity)%Z)
      by (apply Hd; lra).
    repeat split; try lra.
    intros Hz. exfalso. lia.
  - assert (Hq : ~ (2 <= quantity <= 100 \/ 5000 <= quantity)%Z).
    { intros Hq. apply Hd in Hq. lra. }
    repeat split; try lra.
    intros _. lia.
Qed.

(** ** Feature counts *)

(** X5: on every mesh the feature counts stay within their caps (5 holes,
    3 cavities, 4 sharp edges, 8 pockets), and the feature score lies
    between 0 and 11.4. *)
Theorem X5_feature_counts_within_caps (mesh : Mesh) :
  let f := detect_features mesh in
  (0 <= holes f <= 5)%Z /\ (0 <= cavities f <= 3)%Z /\
  (0 <= sharp_edges f <= 4)%Z /\ (0 <= pockets f <= 8)%Z /\
  0 <= feature_score f <= 11.4.
Proof.
  unfold detect_features.
  set (ratio := if Py.ltb 0 (Qabs (volume mesh)) then _ else _).
  set (features := if Py.ltb 0.15 ratio then _ else _).
  assert (Hholes : (0 <= holes features <= 5)%Z).
  { unfold features. destruct (Py.ltb 0.15 ratio); cbn; lia. }
  cbv zeta. cbn [holes cavities sharp_edges pockets feature_score].
  set (cav := match Py.div _ _ with Some _ => _ | None => _ end).
  set (sharp := if Py.ltb 3.0 _ then _ else _).
  set (pock := if (2000 <? _)%Z then _ else _).
  assert (Hcav : (0 <= cav <= 3)%Z).
  { unfold cav. destruct (Py.div _ _); [| lia].
    destruct (Py.ltb 0.2 _); lia. }
  assert (Hsharp : (0 <= sharp <= 4)%Z)
    by (unfold sharp; destruct (Py.ltb 3.0 _); lia).
  assert (Hpock : (0 <= pock <= 8)%Z).
  { unfold pock. destruct (2000 <? _)%Z; [lia |].
    destruct (1000 <? _)%Z; lia. }
  repeat split; try lia.
  - destruct Hholes as [H _], Hcav as [H1 _], Hsharp as [H2 _],
      Hpock as [H3 _].
    apply inject_Z_nonneg in H, H1, H2, H3. lra.
  - destruct Hholes as [_ H], Hcav as [_ H1], Hsharp as [_ H2],
      Hpock as [_ H3].
    rewrite Zle_Qle in H, H1, H2, H3.
    change (inject_Z 5) with 5 in H. change (inject_Z 3) with 3 in H1.
    change (inject_Z 4) with 4 in H2. change (inject_Z 8) with 8 in H3.
    lra.
Qed.

Lemma Qabs_pos (x : Q) : ~ x == 0 -> 0 < Qabs x.
Proof.
  intros Hx. destruct (Qlt_le_dec 0 (Qabs x)) as [H | H]; [exact H |].
  exfalso. apply Hx. apply Qabs_Qle_condition in H. lra.
Qed.

Lemma int_nonneg (x : Q) : 0 <= x -> Py.int x = Qfloor x.
Proof.
  destruct x as [a d]. unfold Qle, Py.int, Qfloor. cbn. intros H.
  apply Z.quot_div_nonneg; lia.
Qed.

Lemma int_of_eq (x : Q) (n : Z) : (0 <= n)%Z -> x == inject_Z n -> Py.int x = n.
Proof.
  intros Hn Hx. rewrite int_nonneg.
  - rewrite Hx. apply Qfloor_Z.
  - rewrite Hx. apply inject_Z_nonneg, Hn.
Qed.

(** A mesh whose hull has volume zero: the quotient of the cavity ratio is
    not a number, no cavity is counted, and the other counts are kept (3000
    faces give 3 pockets and the score 1.5). *)
Example detect_features_flat_hull :
  let f := detect_features
             {| bounds_min := (0, 0, 0); bounds_max := (100, 80, 0);
                volume := 0; area := 0; convex_hull_volume := 0;
                faces := 3000; edges := 4500 |} in
  holes f = 0%Z /\ cavities f = 0%Z /\ sharp_edges f = 0%Z /\
  pockets f = 3%Z /\ feature_score f == 1.5.
Proof. vm_compute. repeat split; reflexivity. Qed.

(** X6: a mesh of zero volume inside a hull of non-zero volume is given no
    hole but the full three cavities. *)
Theorem X6_zero_volume_mesh_has_three_cavities (mesh : Mesh) :
  volume mesh == 0 -> ~ convex_hull_volume mesh == 0 ->
  holes (detect_features mesh) = 0%Z /\
  cavities (detect_features mesh) = 3%Z.
Proof.
  intros Hv Hh.
  assert (Hv0 : Qabs (volume mesh) == 0) by (rewrite Hv; reflexivity).
  pose proof (Qabs_pos _ Hh) as Hhull.
  unfold detect_features.
  rewrite (proj2 (ltb_ge 0 (Qabs (volume mesh)))) by lra.
  rewrite div_Some by exact Hhull.
  cbv zeta. cbn [holes cavities].
  assert (Hq : Qabs (volume mesh) / Qabs (convex_hull_volume mesh) == 0).
  { rewrite Hv0. field. lra. }
  rewrite (proj2 (ltb_lt 0.2 _)) by lra.
  split; [reflexivity |].
  rewrite (int_of_eq _ 3); [reflexivity | lia |].
  rewrite Hq. reflexivity.
Qed.

Lemma X6_witness_flat_sheet :
  holes (detect_features
           {| bounds_min := (0, 0, 0); bounds_max := (100, 80, 0);
              volume := 0; area := 16000; convex_hull_volume := 5;
              faces := 4; edges := 12 |}) = 0%Z /\
  cavities (detect_features
              {| bounds_min := (0, 0, 0); bounds_max := (100, 80, 0);
                 volume := 0; area := 16000; convex_hull_volume := 5;
                 faces := 4; edges := 12 |}) = 3%Z.
Proof.
  apply X6_zero_volume_mesh_has_three_cavities.
  - reflexivity.
  - vm_compute. discriminate.
Defined.

Lemma int_inject_div (n : Z) (d : positive) :
  (0 <= n)%Z -> Py.int (inject_Z n / inject_Z (Z.pos d)) = (n / Z.pos d)%Z.
Proof.
  intros Hn.
  assert (E : inject_Z n / inject_Z (Z.pos d) == n # d)
    by (symmetry; apply Qmake_Qdiv).
  rewrite int_nonneg.
  - rewrite E. reflexivity.
  - apply Qdiv_nonneg; [apply inject_Z_nonneg, Hn | reflexivity].
Qed.

(** X7: as long as the volume of the hull is not zero, the pocket count is
    a step function of the face count: none up to 1000 faces, the integer
    quotient by 800 up to 2000 faces (1 or 2), and beyond that the integer
    quotient by 1000, capped at 8.  The lower clamps at 1 and the cap at 4
    never come into play. *)
Theorem X7_pockets_by_face_count (mesh : Mesh) :
  ~ convex_hull_volume mesh == 0 ->
  let face_count := Z.of_N (faces mesh) in
  pockets (detect_features mesh)
  = (if face_count <=? 1000 then 0
     else if face_count <=? 2000 then face_count / 800
     else Z.min 8 (face_count / 1000))%Z.
Proof.
  intros Hh. pose proof (Qabs_pos _ Hh) as Hhull.
  unfold detect_features. rewrite div_Some by exact Hhull.
  cbv zeta. cbn [pockets].
  set (fc := Z.of_N (faces mesh)).
  assert (Hfc : (0 <= fc)%Z) by (unfold fc; lia).
  change 1000 with (inject_Z 1000). change 800 with (inject_Z 800).
  rewrite !int_inject_div by exact Hfc.
  destruct (Z.ltb_spec 2000 fc) as [H2 | H2].
  - destruct (Z.leb_spec fc 1000); [lia |].
    destruct (Z.leb_spec fc 2000); [lia |].
    assert (2 <= fc / 1000)%Z by (apply Z.div_le_lower_bound; lia).
    lia.
  - destruct (Z.ltb_spec 1000 fc) as [H1 | H1].
    + destruct (Z.leb_spec fc 1000); [lia |].
      destruct (Z.leb_spec fc 2000); [| lia].
      assert (1 <= fc / 800)%Z by (apply Z.div_le_lower_bound; lia).
      assert (fc / 800 < 3)%Z by (apply Z.div_lt_upper_bound; lia).
      lia.
    + destruct (Z.leb_spec fc 1000); [reflexivity | lia].
Qed.

Lemma X7_witness_fine_plate : pockets (detect_features fine_plate) = 2%Z.
Proof.
  apply (X7_pockets_by_face_count fine_plate).
  vm_compute. discriminate.
Defined.

(** ** Labor *)

Lemma complexity_factor_cases (score : Q) :
  let f := if Py.ltb score 3 then 0.8
           else if Py.ltb score 7 then 1.0 else 1.4 in
  f = 0.8 \/ f = 1.0 \/ f = 1.4.
Proof.
  cbv zeta. destruct (Py.ltb score 3); [auto |].
  destruct (Py.ltb score 7); auto.
Qed.

Lemma scale_by_quantity (x : Q) (q : Z) :
  0 <= x -> (1 < q)%Z -> x <= x * inject_Z q.
Proof.
  intros Hx Hq.
  assert (H : 1 <= inject_Z q).
  { change 1 with (inject_Z 1). rewrite <- Zle_Qle. lia. }
  apply (Qle_trans _ (x * 1)); [lra |].
  apply Qmult_le_compat_nonneg; split; lra.
Qed.

(** X8: whatever the surface area, inspection is charged at least 5.20 and
    finishing at least 3.60 (a tenth of an hour each at the lowest
    complexity factor), and the three setup costs are at least 14.08, 6.24
    and 5.28; with a non-negative complexity score, project management is
    at least 17 and the total labor cost at least 51.40 for every
    quantity. *)
Theorem X8_labor_cost_floors (mesh : Mesh) (score : Q) (quantity : Z) :
  0 <= score ->
  let lc := calculate_labor_costs mesh score quantity in
  14.08 <= cad_cam_programming lc /\ 6.24 <= machine_setup lc /\
  5.28 <= tool_setup lc /\ 5.2 <= quality_inspection lc /\
  3.6 <= deburring_finishing lc /\ 17 <= project_management lc /\
  51.4 <= total_labor_cost lc.
Proof.
  intros Hscore. unfold calculate_labor_costs. cbv zeta.
  cbn [cad_cam_programming machine_setup tool_setup quality_inspection
       deburring_finishing project_management total_labor_cost].
  pose proof (max_lower 0.1 (area mesh / 1000000 * 0.5)) as Hqc.
  pose proof (max_lower 0.1 (area mesh / 1000000 * 0.3)) as Hfin.
  set (qc := Py.max 0.1 (area mesh / 1000000 * 0.5)) in *.
  set (fin := Py.max 0.1 (area mesh / 1000000 * 0.3)) in *.
  unfold base_setup_time, labor_rates.
  cbn [rate_cad_cam_programming rate_machine_setup rate_tool_setup
       rate_quality_inspection rate_deburring_finishing
       rate_project_management].
  pose proof (Qdiv_nonneg score 20 Hscore ltac:(lra)) as Hpm.
  destruct (complexity_factor_cases score) as [Ef | [Ef | Ef]];
    cbv zeta in Ef; rewrite Ef;
    (destruct (Z.ltb_spec 1 quantity) as [H1 | H1];
     [match goal with
      | |- context [?x * inject_Z quantity] =>
          pose proof (scale_by_quantity x quantity ltac:(lra) H1);
          set (per_part_total := x * inject_Z quantity) in *
      end;
      repeat split; lra
     | repeat split; lra]).
Qed.

Lemma X8_witness_plate :
  51.4 <= total_labor_cost
            (calculate_labor_costs plate (calculate_complexity_score plate) 5).
Proof.
  apply (X8_labor_cost_floors plate (calculate_complexity_score plate) 5).
  vm_compute. discriminate.
Defined.

Lemma labor_costs_up_to_one (mesh : Mesh) (score : Q) (quantity : Z) :
  (quantity <= 1)%Z ->
  calculate_labor_costs mesh score quantity
  = calculate_labor_costs mesh score 1.
Proof.
  intros H. unfold calculate_labor_costs.
  destruct (Z.ltb_spec 1 quantity); [lia | reflexivity].
Qed.

Lemma labor_costs_from_one (mesh : Mesh) (score : Q) (quantity : Z) :
  (1 <= quantity)%Z ->
  let base := calculate_labor_costs mesh score 1 in
  total_labor_cost (calculate_labor_costs mesh score quantity)
  == total_labor_cost base
     + (quality_inspection base + deburring_finishing base)
       * inject_Z (quantity - 1).
Proof.
  intros H. unfold calculate_labor_costs. cbv zeta.
  cbn [quality_inspection deburring_finishing total_labor_cost].
  change (1 <? 1)%Z with false. cbv iota.
  unfold Z.sub. rewrite inject_Z_plus, inject_Z_opp.
  destruct (Z.ltb_spec 1 quantity) as [H1 | H1].
  - ring.
  - replace quantity with 1%Z by lia. ring.
Qed.

Lemma labor_per_part_positive (mesh : Mesh) (score : Q) (quantity : Z) :
  let lc := calculate_labor_costs mesh score quantity in
  0 < quality_inspection lc + deburring_finishing lc.
Proof.
  unfold calculate_labor_costs. cbv zeta.
  cbn [quality_inspection deburring_finishing].
  pose proof (max_lower 0.1 (area mesh / 1000000 * 0.5)) as Hqc.
  pose proof (max_lower 0.1 (area mesh / 1000000 * 0.3)) as Hfin.
  set (qc := Py.max 0.1 (area mesh / 1000000 * 0.5)) in *.
  set (fin := Py.max 0.1 (area mesh / 1000000 * 0.3)) in *.
  unfold labor_rates.
  cbn [rate_quality_inspection rate_deburring_finishing].
  destruct (complexity_factor_cases score) as [Ef | [Ef | Ef]];
    cbv zeta in Ef; rewrite Ef; lra.
Qed.

(** X9: the six category costs do not depend on the quantity; the total
    labor cost is the same for every quantity up to 1, and from 1 on each
    further part adds the inspection and finishing costs once more.  The
    total therefore never decreases with the quantity. *)
Theorem X9_labor_total_grows_with_quantity
    (mesh : Mesh) (score : Q) (q1 q2 : Z) :
  (q1 <= q2)%Z ->
  let lc1 := calculate_labor_costs mesh score q1 in
  let lc2 := calculate_labor_costs mesh score q2 in
  quality_inspection lc2 = quality_inspection lc1 /\
  deburring_finishing lc2 = deburring_finishing lc1 /\
  total_labor_cost lc1 <= total_labor_cost lc2 /\
  ((q2 <= 1)%Z -> total_labor_cost lc2 = total_labor_cost lc1) /\
  ((1 <= q1)%Z ->
   total_labor_cost lc2
   == total_labor_cost lc1
      + (quality_inspection lc1 + deburring_finishing lc1)
        * inject_Z (q2 - q1)).
Proof.
  intros Hle lc1 lc2.
  assert (Hsame : quality_inspection lc2 = quality_inspection lc1 /\
                  deburring_finishing lc2 = deburring_finishing lc1)
    by (split; reflexivity).
  destruct Hsame as [Hq Hd].
  assert (Hbase : forall q,
             quality_inspection (calculate_labor_costs mesh score q)
             + deburring_finishing (calculate_labor_costs mesh score q)
             = quality_inspection lc1 + deburring_finishing lc1)
    by reflexivity.
  pose proof (labor_per_part_positive mesh score q1) as Hpos.
  cbv zeta in Hpos. fold lc1 in Hpos.
  assert (Hlin : (1 <= q1)%Z ->
            total_labor_cost lc2
            == total_labor_cost lc1
               + (quality_inspection lc1 + deburring_finishing lc1)
                 * inject_Z (q2 - q1)).
  { intros H1.
    pose proof (labor_costs_from_one mesh score q1 H1) as E1.
    pose proof (labor_costs_from_one mesh score q2 ltac:(lia)) as E2.
    cbv zeta in E1, E2. rewrite (Hbase 1%Z) in E1, E2.
    fold lc1 in E1. fold lc2 in E2. rewrite E2, E1.
    replace (q2 - q1)%Z with ((q2 - 1) + - (q1 - 1))%Z by lia.
    rewrite inject_Z_plus, inject_Z_opp. ring. }
  repeat split; try assumption.
  - destruct (Z.le_gt_cases q2 1) as [H2 | H2].
    + unfold lc1, lc2.
      rewrite (labor_costs_up_to_one mesh score q1) by lia.
      rewrite (labor_costs_up_to_one mesh score q2) by lia. lra.
    + destruct (Z.le_gt_cases 1 q1) as [H1 | H1].
      * rewrite (Hlin H1).
        assert (Hn : 0 <= inject_Z (q2 - q1))
          by (apply inject_Z_nonneg; lia).
        pose proof (Qmult_le_0_compat _ _ (Qlt_le_weak _ _ Hpos) Hn).
        lra.
      * pose proof (labor_costs_from_one mesh score q2 ltac:(lia)) as E2.
        cbv zeta in E2. rewrite (Hbase 1%Z) in E2. fold lc2 in E2.
        assert (E1 : total_labor_cost lc1
                     = total_labor_cost (calculate_labor_costs mesh score 1)).
        { unfold lc1. rewrite (labor_costs_up_to_one mesh score q1) by lia.
          reflexivity. }
        rewrite E2, <- E1.
        assert (Hn : 0 <= inject_Z (q2 - 1))
          by (apply inject_Z_nonneg; lia).
        pose proof (Qmult_le_0_compat _ _ (Qlt_le_weak _ _ Hpos) Hn).
        lra.
  - intros H2. unfold lc1, lc2.
    rewrite (labor_costs_up_to_one mesh score q1) by lia.
    rewrite (labor_costs_up_to_one mesh score q2) by lia. reflexivity.
Qed.

Lemma X9_witness_plate_1_to_10 :
  total_labor_cost (calculate_labor_costs plate 4.27 1)
  <= total_labor_cost (calculate_labor_costs plate 4.27 10).
Proof.
  apply (X9_labor_total_grows_with_quantity plate 4.27 1 10). lia.
Defined.

(** ** The quote: lead time, expedited tiers *)

Lemma calculate_costs_same_block (mesh : Mesh) (q1 q2 : Z)
    (e1 e2 : option string) (r1 r2 : QuoteResult) :
  calculate_costs mesh q1 e1 = Return r1 ->
  calculate_costs mesh q2 e2 = Return r2 ->
  exists block,
    block_fits (dimensions_of mesh) block /\
    r1 = quote_for_block mesh q1 e1 block /\
    r2 = quote_for_block mesh q2 e2 block.
Proof.
  intros H1 H2.
  apply calculate_costs_Return in H1 as (b1 & E1 & Hfit & ->).
  apply calculate_costs_Return in H2 as (b2 & E2 & _ & ->).
  rewrite E1 in E2. injection E2 as <-. eauto.
Qed.

Lemma complexity_score_at_most_8 (mesh : Mesh) :
  calculate_complexity_score mesh <= 8.
Proof.
  unfold calculate_complexity_score. cbv zeta.
  eapply Qle_trans; [apply min_upper | lra].
Qed.

(** X10: the lead time of a quote does not depend on the quantity (the
    lead time computed from the machining hours is overwritten).  It is
    one of 3, 4, 5, 7, 10 and 11 days, and 11 days are only quoted without
    an expedited tier for a part whose complexity score sits at the cap of
    8. *)
Theorem X10_lead_time_ignores_quantity
    (mesh : Mesh) (q1 q2 : Z) (expedited : option string)
    (r1 r2 : QuoteResult) :
  calculate_costs mesh q1 expedited = Return r1 ->
  calculate_costs mesh q2 expedited = Return r2 ->
  lead_time_days r1 = lead_time_days r2 /\
  In (lead_time_days r1) [3; 4; 5; 7; 10; 11]%Z /\
  (lead_time_days r1 = 11%Z ->
   complexity_score r1 == 8 /\ expedited_config expedited = None).
Proof.
  intros H1 H2.
  destruct (calculate_costs_same_block _ _ _ _ _ _ _ H1 H2)
    as (b & _ & -> & ->).
  rewrite !quote_lead_time_days.
  destruct (quote_multipliers mesh q1 expedited b) as (_ & _ & _ & Hs1 & _).
  destruct (quote_multipliers mesh q2 expedited b) as (_ & _ & _ & Hs2 & _).
  cbv zeta in Hs1, Hs2. rewrite Hs1, Hs2.
  pose proof (complexity_score_at_most_8 mesh) as H8.
  split; [reflexivity |].
  unfold standard_lead_time.
  destruct (expedited_config expedited) as [c |] eqn:Ec.
  - apply expedited_config_Some in Ec.
    destruct Ec as [[-> _] | [[-> _] | [-> _]]]; cbn;
      (split; [tauto | discriminate]).
  - assert (Hstd :
      In (if Py.ltb (calculate_complexity_score mesh) 5 then 7%Z
          else if Py.ltb (calculate_complexity_score mesh) 8 then 10%Z
          else 11%Z) [3; 4; 5; 7; 10; 11]%Z /\
      ((if Py.ltb (calculate_complexity_score mesh) 5 then 7%Z
        else if Py.ltb (calculate_complexity_score mesh) 8 then 10%Z
        else 11%Z) = 11%Z ->
       calculate_complexity_score mesh == 8 /\ None = @None ExpeditedOption)).
    { case_ltb (calculate_complexity_score mesh) 5;
        [split; [cbn; tauto | discriminate] |].
      case_ltb (calculate_complexity_score mesh) 8;
        [split; [cbn; tauto | discriminate] |].
      split; [cbn; tauto |]. intros _. split; [lra | reflexivity]. }
    destruct expedited; exact Hstd.
Qed.

Lemma X10_witness_plate :
  lead_time_days (quote_for_block plate 1 None [100; 100; 100]%Z)
  = lead_time_days (quote_for_block plate 500 None [100; 100; 100]%Z).
Proof.
  destruct (X10_lead_time_ignores_quantity plate 1 500 None
              (quote_for_block plate 1 None [100; 100; 100]%Z)
              (quote_for_block plate 500 None [100; 100; 100]%Z))
    as [H _]; [vm_compute; reflexivity .. | exact H].
Defined.

Lemma expedited_config_lookup (s : string) (c : ExpeditedOption) :
  expedited_options !! s = Some c -> expedited_config (Some s) = Some c.
Proof.
  intros H. unfold expedited_config.
  destruct (String.eqb_spec s "") as [-> | _]; [| exact H].
  vm_compute in H. discriminate.
Qed.

Lemma quote_costs_ignore_expedited (mesh : Mesh) (quantity : Z)
    (e1 e2 : option string) (block : list Z) :
  let r1 := quote_for_block mesh quantity e1 block in
  let r2 := quote_for_block mesh quantity e2 block in
  composite_cost r1 = composite_cost r2 /\
  machine_time_cost r1 = machine_time_cost r2 /\
  material_cost r1 = material_cost r2 /\
  b_total_labor_cost (breakdown r1) = b_total_labor_cost (breakdown r2) /\
  block_size (breakdown r1) = block_size (breakdown r2).
Proof. quote_field. Qed.

Lemma quote_expedited_description (mesh : Mesh) (quantity : Z)
    (e : option string) (block : list Z) :
  let r := quote_for_block mesh quantity e block in
  expedited_description (breakdown r)
  = description <$> expedited_config e /\
  b_expedited_multiplier (breakdown r) = expedited_multiplier r /\
  expedited r = bool_decide (e <> None).
Proof. quote_field. Qed.

Lemma quote_with_tier (mesh : Mesh) (quantity : Z) (e : option string)
    (block : list Z) (c : ExpeditedOption) :
  expedited_config e = Some c ->
  let r := quote_for_block mesh quantity e block in
  per_unit_cost r = floored (composite_cost r) * multiplier c /\
  expedited_multiplier r = multiplier c /\
  expedited_description (breakdown r) = Some (description c).
Proof.
  intros Hc.
  pose proof (quote_per_unit_cost mesh quantity e block) as Hp.
  pose proof (quote_expedited_multiplier mesh quantity e block) as Hx.
  destruct (quote_expedited_description mesh quantity e block)
    as (Hd & _ & _).
  cbv zeta in *. rewrite Hc in Hp, Hx, Hd. rewrite Hx in Hp.
  split; [exact Hp |]. split; [exact Hx | exact Hd].
Qed.

Lemma quote_without_tier (mesh : Mesh) (quantity : Z) (e : option string)
    (block : list Z) :
  expedited_config e = None ->
  let r := quote_for_block mesh quantity e block in
  per_unit_cost r = floored (composite_cost r) /\
  expedited_multiplier r = 1.0 /\
  expedited_description (breakdown r) = None.
Proof.
  intros Hc.
  pose proof (quote_per_unit_cost mesh quantity e block) as Hp.
  pose proof (quote_expedited_multiplier mesh quantity e block) as Hx.
  destruct (quote_expedited_description mesh quantity e block)
    as (Hd & _ & _).
  cbv zeta in *. rewrite Hc in Hp, Hx, Hd.
  split; [exact Hp |]. split; [exact Hx | exact Hd].
Qed.

(** X11: asking for one of the expedited tiers changes nothing in the
    costs of the quote but multiplies the per-unit and total prices of the
    standard quote by the multiplier of the tier, whose description is
    recorded in the breakdown. *)
Theorem X11_expedited_tier_scales_the_standard_price
    (mesh : Mesh) (quantity : Z) (tier : string) (c : ExpeditedOption)
    (r0 r : QuoteResult) :
  expedited_options !! tier = Some c ->
  calculate_costs mesh quantity None = Return r0 ->
  calculate_costs mesh quantity (Some tier) = Return r ->
  per_unit_cost r == multiplier c * per_unit_cost r0 /\
  total_cost r == multiplier c * total_cost r0 /\
  expedited_multiplier r = multiplier c /\
  expedited_description (breakdown r) = Some (description c) /\
  machine_time_cost r = machine_time_cost r0 /\
  material_cost r = material_cost r0 /\
  b_total_labor_cost (breakdown r) = b_total_labor_cost (breakdown r0).
Proof.
  intros Hc H0 H.
  destruct (calculate_costs_same_block _ _ _ _ _ _ _ H0 H)
    as (b & _ & -> & ->).
  apply expedited_config_lookup in Hc.
  destruct (quote_costs_ignore_expedited mesh quantity (Some tier) None b)
    as (Hcomp & Hm & Hmat & Hlab & _).
  destruct (quote_with_tier mesh quantity (Some tier) b c Hc)
    as (Hp & Hx & Hd).
  destruct (quote_without_tier mesh quantity None b eq_refl)
    as (Hp0 & _ & _).
  pose proof (quote_total_cost mesh quantity (Some tier) b) as Ht.
  pose proof (quote_total_cost mesh quantity None b) as Ht0.
  cbv zeta in Hcomp, Hm, Hmat, Hlab, Hp, Hx, Hd, Hp0, Ht, Ht0.
  rewrite Ht, Ht0, Hp, Hp0, Hcomp.
  generalize (floored (composite_cost (quote_for_block mesh quantity None b))).
  intros price.
  split; [ring |]. split; [ring |]. split; [exact Hx |].
  split; [exact Hd |]. split; [exact Hm |]. split; [exact Hmat | exact Hlab].
Qed.

Lemma X11_witness_plate_in_4_days :
  per_unit_cost (quote_for_block plate 2 (Some "4_days") [100; 100; 100]%Z)
  == 1.6 * per_unit_cost (quote_for_block plate 2 None [100; 100; 100]%Z).
Proof.
  destruct (X11_expedited_tier_scales_the_standard_price
              plate 2 "4_days"
              {| multiplier := 1.6; max_days := 4;
                 description := "4 business days" |}
              (quote_for_block plate 2 None [100; 100; 100]%Z)
              (quote_for_block plate 2 (Some "4_days") [100; 100; 100]%Z))
    as [H _]; [vm_compute; reflexivity .. | exact H].
Defined.

(** X12: the [expedited] flag of a quote only tells whether a value was
    passed: it is set for any string, also for one that names no tier (or
    for the empty string), in which case the multiplier stays 1.0 and no
    description is recorded. *)
Theorem X12_expedited_flag_is_set_for_any_string
    (mesh : Mesh) (quantity : Z) (e : option string)
    (r : QuoteResult) :
  calculate_costs mesh quantity e = Return r ->
  expedited r
  = match e with Some _ => true | None => false end /\
  b_expedited_multiplier (breakdown r) = expedited_multiplier r /\
  (forall s, e = Some s -> expedited_options !! s = None ->
             expedited r = true /\
             expedited_multiplier r = 1.0 /\
             expedited_description (breakdown r) = None).
Proof.
  intros H. apply calculate_costs_Return in H as (b & _ & _ & ->).
  destruct (quote_expedited_description mesh quantity e b)
    as (Hdesc & Hmul & Hflag).
  cbv zeta in *. rewrite Hflag, Hdesc, quote_expedited_multiplier.
  assert (Hb : bool_decide (e <> None)
               = match e with Some _ => true | None => false end).
  { destruct e.
    - apply bool_decide_eq_true_2. discriminate.
    - apply bool_decide_eq_false_2. intros H. apply H. reflexivity. }
  split; [exact Hb |]. split; [exact Hmul |].
  intros s -> Hs.
  assert (Ec : expedited_config (Some s) = None).
  { unfold expedited_config. destruct (String.eqb s ""); [reflexivity |].
    exact Hs. }
  rewrite Ec, Hb. repeat split.
Qed.

Lemma X12_witness_plate_overnight :
  expedited
    (quote_for_block plate 1 (Some "overnight") [100; 100; 100]%Z) = true /\
  expedited_multiplier
    (quote_for_block plate 1 (Some "overnight") [100; 100; 100]%Z) = 1.0.
Proof.
  destruct (X12_expedited_flag_is_set_for_any_string
              plate 1 (Some "overnight")
              (quote_for_block plate 1 (Some "overnight") [100; 100; 100]%Z))
    as (_ & _ & H); [vm_compute; reflexivity |].
  destruct (H "overnight") as (Hf & Hm & _);
    [reflexivity | vm_compute; reflexivity |].
  split; [exact Hf | exact Hm].
Defined.

(** ** The quote: volumes, material, totals *)

Lemma quote_volume (mesh : Mesh) (quantity : Z) (e : option string)
    (block : list Z) :
  let r := quote_for_block mesh quantity e block in
  q_volume r = Qabs (volume mesh) /\
  surface_area r = area mesh /\
  material_cost r
  = Qabs (volume mesh) / 1000 * aluminum_density / 1000
    * aluminum_price_per_kg /\
  b_material_cost (breakdown r) = material_cost r.
Proof. quote_field. Qed.

Lemma machine_time_cost_positive (mesh : Mesh) (quantity : Z)
    (e : option string) (block : list Z) :
  In block block_sizes ->
  0 < machine_time_cost (quote_for_block mesh quantity e block).
Proof.
  intros Hin.
  pose proof (milling_costs_positive mesh quantity e block Hin) as Hpos.
  pose proof (quote_machine_time_cost mesh quantity e block) as Hm.
  destruct (quote_multipliers mesh quantity e block) as (Hcm & Hsm & _).
  cbv zeta in Hm, Hcm, Hsm. rewrite Hm, Hcm, Hsm. clear Hm Hcm Hsm.
  generalize dependent
    (milling_costs (quote_for_block mesh quantity e block)).
  intros milling Hpos.
  destruct (complexity_multiplier_cases (calculate_complexity_score mesh))
    as [[_ Ec] | [[_ Ec] | [_ Ec]]];
  destruct (size_multiplier_cases (length (get_bounding_box mesh)))
    as [[_ Es] | [[_ Es] | [_ Es]]];
  cbv zeta in Ec, Es; rewrite Ec, Es; lra.
Qed.

(** X13: in every quote the three phase volumes are non-negative and add
    up to at least the volume of the block minus that of the part, with
    equality when the hull fits in the block and the part fills at most 0.8
    of its hull; the machine time cost is strictly positive. *)
Theorem X13_phase_volumes_cover_the_removed_material
    (mesh : Mesh) (quantity : Z) (e : option string) (r : QuoteResult) :
  calculate_costs mesh quantity e = Return r ->
  let block := inject_Z (block_volume (breakdown r)) in
  let part := q_volume r in
  let hull := Qabs (convex_hull_volume mesh) in
  let removed := coarse_volume (breakdown r) + medium_volume (breakdown r)
                 + fine_volume (breakdown r) in
  0 <= coarse_volume (breakdown r) /\ 0 <= medium_volume (breakdown r) /\
  0 <= fine_volume (breakdown r) /\
  block - part <= removed /\
  (hull <= block -> part <= 0.8 * hull -> removed == block - part) /\
  0 < machine_time_cost r.
Proof.
  intros H. apply calculate_costs_Return in H as (b & _ & [Hin _] & ->).
  pose proof (machine_time_cost_positive mesh quantity e b Hin) as Hpos.
  destruct (quote_milling mesh quantity e b)
    as (Hb & Hc & Hm & Hf & _ & _ & _).
  destruct (quote_volume mesh quantity e b) as (Hv & _).
  cbv zeta in *. rewrite Hb, Hc, Hm, Hf, Hv.
  pose proof (Qabs_nonneg (convex_hull_volume mesh)) as Hhull.
  set (hull := Qabs (convex_hull_volume mesh)) in *.
  set (part := Qabs (volume mesh)) in *.
  set (block := inject_Z (volume_of b)) in *.
  split; [apply max_lower |]. split; [apply max_lower |].
  split; [apply max_lower |].
  split; [| split; [| exact Hpos]].
  - destruct (max_spec 0 (block - hull)) as [[H1 ->] | [H1 ->]];
    destruct (max_spec 0 (hull - hull * 0.8)) as [[H2 ->] | [H2 ->]];
    destruct (max_spec 0 (hull * 0.8 - part)) as [[H3 ->] | [H3 ->]]; lra.
  - intros Hfit Hfill.
    destruct (max_spec 0 (block - hull)) as [[H1 ->] | [H1 ->]];
    destruct (max_spec 0 (hull - hull * 0.8)) as [[H2 ->] | [H2 ->]];
    destruct (max_spec 0 (hull * 0.8 - part)) as [[H3 ->] | [H3 ->]]; lra.
Qed.

Lemma X13_witness_plate :
  0 < machine_time_cost (quote_for_block plate 1 None [100; 100; 100]%Z).
Proof.
  apply (X13_phase_volumes_cover_the_removed_material plate 1 None).
  vm_compute. reflexivity.
Defined.

(** X15: the material is charged on the magnitude of the mesh volume (an
    inverted mesh, of negative signed volume, is charged like its mirror
    image), at 0.0000135 dollars per cubic millimetre; the charge is never
    negative and is the one listed in the breakdown. *)
Theorem X15_material_cost (mesh : Mesh) (quantity : Z) (e : option string)
    (r : QuoteResult) :
  calculate_costs mesh quantity e = Return r ->
  q_volume r = Qabs (volume mesh) /\
  material_cost r == Qabs (volume mesh) * 0.0000135 /\
  0 <= material_cost r /\
  b_material_cost (breakdown r) = material_cost r.
Proof.
  intros H. apply calculate_costs_Return in H as (b & _ & _ & ->).
  destruct (quote_volume mesh quantity e b) as (Hv & _ & Hm & Hb).
  cbv zeta in *. rewrite Hb, Hm, Hv. clear Hb Hm Hv.
  pose proof (Qabs_nonneg (volume mesh)) as Hpos.
  generalize dependent (Qabs (volume mesh)). intros part Hpos.
  unfold aluminum_density, aluminum_price_per_kg.
  assert (E : part / 1000 * 2.7 / 1000 * 5.0 == part * 0.0000135)
    by (field).
  repeat split; try exact E. rewrite E. lra.
Qed.

Lemma X15_witness_plate :
  material_cost (quote_for_block plate 1 None [100; 100; 100]%Z)
  == Qabs (volume plate) * 0.0000135.
Proof.
  apply (X15_material_cost plate 1 None). vm_compute. reflexivity.
Defined.

Lemma quote_per_unit_at_least_200 (mesh : Mesh) (quantity : Z)
    (e : option string) (block : list Z) :
  200 <= per_unit_cost (quote_for_block mesh quantity e block).
Proof.
  pose proof (floored_ge
                (composite_cost (quote_for_block mesh quantity e block)))
    as Hfloor.
  destruct (expedited_config e) as [c |] eqn:Ec.
  - destruct (quote_with_tier mesh quantity e block c Ec) as (Hp & _).
    cbv zeta in Hp. rewrite Hp. clear Hp.
    generalize dependent
      (floored (composite_cost (quote_for_block mesh quantity e block))).
    intros price Hfloor.
    apply expedited_config_Some in Ec.
    destruct Ec as [[_ ->] | [[_ ->] | [_ ->]]]; lra.
  - destruct (quote_without_tier mesh quantity e block Ec) as (Hp & _).
    cbv zeta in Hp. rewrite Hp. exact Hfloor.
Qed.

(** X16: the quantity is not validated.  For a non-negative quantity the
    total is at least 200 times the quantity; a quantity of zero is quoted
    with a total of zero (next to a per-unit cost of at least 200), and a
    negative quantity with a negative total. *)
Theorem X16_total_cost_by_sign_of_quantity
    (mesh : Mesh) (quantity : Z) (e : option string) (r : QuoteResult) :
  calculate_costs mesh quantity e = Return r ->
  200 <= per_unit_cost r /\
  ((0 <= quantity)%Z -> 200 * inject_Z quantity <= total_cost r) /\
  (quantity = 0%Z -> total_cost r == 0) /\
  ((quantity < 0)%Z -> total_cost r < 0).
Proof.
  intros H. apply calculate_costs_Return in H as (b & _ & _ & ->).
  pose proof (quote_per_unit_at_least_200 mesh quantity e b) as Hp.
  pose proof (quote_total_cost mesh quantity e b) as Ht.
  cbv zeta in Ht. rewrite Ht. clear Ht.
  generalize dependent
    (per_unit_cost (quote_for_block mesh quantity e b)).
  intros price Hp.
  split; [exact Hp |]. repeat split.
  - intros Hq. apply Qmult_le_compat_r; [exact Hp |].
    apply inject_Z_nonneg, Hq.
  - intros ->. ring.
  - intros Hq.
    assert (Hn : 0 < - inject_Z quantity).
    { rewrite <- inject_Z_opp. change 0 with (inject_Z 0).
      rewrite <- Zlt_Qlt. lia. }
    assert (Hprod : 0 < price * - inject_Z quantity)
      by (apply Qmult_lt_0_compat; lra).
    assert (E : price * inject_Z quantity
                == - (price * - inject_Z quantity)) by ring.
    rewrite E. lra.
Qed.

Lemma X16_witness_plate_quantity_zero :
  total_cost (quote_for_block plate 0 None [100; 100; 100]%Z) == 0.
Proof.
  destruct (X16_total_cost_by_sign_of_quantity plate 0 None
              (quote_for_block plate 0 None [100; 100; 100]%Z))
    as (_ & _ & H & _); [vm_compute; reflexivity |].
  apply H. reflexivity.
Defined.

(** X17: the complexity multiplier of a quote is 0.85 for a score below 4,
    1.0 from 4 and below 6, and 1.35 from 6 on; the default of the
    dictionary lookup is never used. *)
Theorem X17_complexity_multiplier_by_score
    (mesh : Mesh) (quantity : Z) (e : option string) (r : QuoteResult) :
  calculate_costs mesh quantity e = Return r ->
  complexity_score r = calculate_complexity_score mesh /\
  is_Some (complexity_calibration
             !! get_complexity_category (complexity_score r)) /\
  (complexity_score r < 4 -> complexity_multiplier (breakdown r) = 0.85) /\
  (4 <= complexity_score r < 6 ->
   complexity_multiplier (breakdown r) = 1.0) /\
  (6 <= complexity_score r -> complexity_multiplier (breakdown r) = 1.35).
Proof.
  intros H. apply calculate_costs_Return in H as (b & _ & _ & ->).
  destruct (quote_multipliers mesh quantity e b)
    as (Hcm & _ & _ & Hs & _).
  cbv zeta in *. rewrite Hs, Hcm.
  split; [reflexivity |].
  split.
  { unfold get_complexity_category.
    destruct (Py.ltb _ 4.0); [vm_compute; eauto |].
    destruct (Py.ltb _ 6.0); vm_compute; eauto. }
  destruct (complexity_multiplier_cases (calculate_complexity_score mesh))
    as [[Hl Ec] | [[Hl Ec] | [Hl Ec]]];
    cbv zeta in Ec; rewrite Ec;
    (repeat split; intros; try reflexivity; lra).
Qed.

Lemma X17_witness_plate :
  complexity_multiplier
    (breakdown (quote_for_block plate 1 None [100; 100; 100]%Z)) = 1.0.
Proof.
  destruct (X17_complexity_multiplier_by_score plate 1 None
              (quote_for_block plate 1 None [100; 100; 100]%Z))
    as (_ & _ & _ & H & _); [vm_compute; reflexivity |].
  apply H. split; vm_compute; [discriminate | reflexivity].
Defined.

(** ** The largest block decides what is refused *)

Lemma Forall2_Qle_trans (a b c : list Q) :
  Forall2 Qle a b -> Forall2 Qle b c -> Forall2 Qle a c.
Proof.
  intros Hab. revert c. induction Hab as [| x y a b Hxy Hab IH]; intros c Hbc.
  - inversion Hbc. constructor.
  - inversion Hbc as [| y' z b' c' Hyz Hbc' E1 E2]; subst.
    constructor; [lra | apply IH, Hbc'].
Qed.

Lemma largest_block_dominates_all (block : list Z) :
  In block block_sizes ->
  Forall2 Qle (map inject_Z (Py.sorted Z.leb block))
              (map inject_Z (Py.sorted Z.leb [600; 500; 500]%Z)).
Proof.
  intros H. cbn in H.
  repeat (destruct H as [<- | H];
          [cbn; repeat (constructor; [unfold Qle; cbn; lia |]); constructor
          |]).
  contradiction.
Qed.

Lemma sorted_triple (l w h : Q) :
  exists a b c,
    Py.sorted Py.leb [l; w; h] = [a; b; c] /\
    Permutation [l; w; h] [a; b; c].
Proof.
  pose proof (sorted_length Py.leb [l; w; h]) as Hlen.
  pose proof (sorted_perm Py.leb [l; w; h]) as Hperm.
  destruct (Py.sorted Py.leb [l; w; h]) as [| a [| b [| c [| d t]]]];
    try discriminate.
  eauto.
Qed.

Lemma some_block_fits_iff_largest (l w h : Q) :
  (exists block, block_fits [l; w; h] block)
  <-> dominates [600; 500; 500]%Z [l; w; h].
Proof.
  split.
  - intros (b & Hb). apply block_fits_fitting_block in Hb.
    destruct Hb as [Hin Hdom]. unfold dominates in *.
    eapply Forall2_Qle_trans; [exact Hdom |].
    apply largest_block_dominates_all, Hin.
  - intros H. exists [600; 500; 500]%Z. apply block_fits_fitting_block.
    split; [simpl; tauto | exact H].
Qed.

Lemma calculate_costs_Raise_iff (mesh : Mesh) (quantity : Z)
    (e : option string) :
  (calculate_costs mesh quantity e = Raise too_large
   <-> ~ exists block, block_fits (dimensions_of mesh) block) /\
  ((exists block, block_fits (dimensions_of mesh) block)
   -> exists r, calculate_costs mesh quantity e = Return r).
Proof.
  rewrite calculate_costs_unfold.
  destruct (find_smallest_fitting_block (dimensions_of mesh))
    as [b |] eqn:E.
  - pose proof (find_smallest_fitting_block_fits _ _ E) as Hfit.
    assert (Hne : b <> []) by (apply block_sizes_nonempty, Hfit).
    destruct b as [| x b]; [congruence |].
    split; [split |].
    + discriminate.
    + intros H. elim H. eauto.
    + intros _. eauto.
  - rewrite find_smallest_fitting_block_None in E.
    split; [split |].
    + intros _ (b & Hb). apply (E b Hb).
    + reflexivity.
    + intros (b & Hb). elim (E b Hb).
Qed.

(** X14: a part is refused exactly when it does not fit in the largest
    block of the catalog, 600 x 500 x 500 mm.  In particular every part
    within 500 mm along each axis is quoted, and every part longer than 600
    mm along some axis is refused. *)
Theorem X14_refused_exactly_beyond_the_largest_block
    (mesh : Mesh) (quantity : Z) (e : option string) :
  let bb := get_bounding_box mesh in
  (calculate_costs mesh quantity e = Raise too_large
   <-> ~ dominates [600; 500; 500]%Z (dimensions_of mesh)) /\
  (dominates [600; 500; 500]%Z (dimensions_of mesh)
   -> exists r, calculate_costs mesh quantity e = Return r) /\
  (length bb <= 500 -> width bb <= 500 -> height bb <= 500 ->
   exists r, calculate_costs mesh quantity e = Return r) /\
  (600 < length bb \/ 600 < width bb \/ 600 < height bb ->
   calculate_costs mesh quantity e = Raise too_large).
Proof.
  cbv zeta. unfold dimensions_of.
  set (l := length (get_bounding_box mesh)).
  set (w := width (get_bounding_box mesh)).
  set (h := height (get_bounding_box mesh)).
  destruct (calculate_costs_Raise_iff mesh quantity e) as [Hraise Hret].
  unfold dimensions_of in Hraise, Hret. fold l w h in Hraise, Hret.
  rewrite (some_block_fits_iff_largest l w h) in Hraise, Hret.
  split; [exact Hraise |]. split; [exact Hret |].
  destruct (sorted_triple l w h) as (a & b & c & Es & Hperm).
  assert (Hdom : dominates [600; 500; 500]%Z [l; w; h]
                 <-> a <= 500 /\ b <= 500 /\ c <= 600).
  { unfold dominates. rewrite Es. cbn.
    change (inject_Z 500) with 500. change (inject_Z 600) with 600.
    split.
    - intros H. inversion H as [| ? ? ? ? Ha H' ]; subst.
      inversion H' as [| ? ? ? ? Hb H'' ]; subst.
      inversion H'' as [| ? ? ? ? Hc H''' ]; subst. auto.
    - intros (Ha & Hb & Hc). repeat constructor; assumption. }
  split.
  - intros Hl Hw Hh. apply Hret, Hdom.
    assert (Hall : Forall (fun d => d <= 500) [a; b; c]).
    { eapply Permutation_Forall; [exact Hperm |].
      repeat constructor; assumption. }
    inversion Hall as [| ? ? Ha Hall']; subst.
    inversion Hall' as [| ? ? Hb Hall'']; subst.
    inversion Hall'' as [| ? ? Hc _]; subst. lra.
  - intros Hbig. apply Hraise. intros Hd. apply Hdom in Hd.
    destruct Hd as (Ha & Hb & Hc).
    assert (Hin : forall d, In d [l; w; h] -> d <= 600).
    { intros d Hd. apply (Permutation_in _ Hperm) in Hd.
      destruct Hd as [<- | [<- | [<- | []]]]; lra. }
    pose proof (Hin l ltac:(simpl; tauto)).
    pose proof (Hin w ltac:(simpl; tauto)).
    pose proof (Hin h ltac:(simpl; tauto)).
    lra.
Qed.

Lemma X14_witness_plate :
  exists r, calculate_costs plate 1 None = Return r.
Proof.
  destruct (X14_refused_exactly_beyond_the_largest_block plate 1 None)
    as (_ & _ & H & _).
  apply H; vm_compute; discriminate.
Defined.

(** ** The chosen block against the part *)

Lemma Qprod_perm (l l' : list Q) :
  Permutation l l' -> fold_right Qmult 1 l == fold_right Qmult 1 l'.
Proof.
  induction 1 as [| x l l' _ IH | x y l | l l' l'' _ IH1 _ IH2]; cbn.
  - reflexivity.
  - rewrite IH. reflexivity.
  - ring.
  - rewrite IH1. exact IH2.
Qed.

Lemma Zprod_perm (l l' : list Z) :
  Permutation l l' -> fold_right Z.mul 1%Z l = fold_right Z.mul 1%Z l'.
Proof.
  induction 1 as [| x l l' _ IH | x y l | l l' l'' _ IH1 _ IH2]; cbn.
  - reflexivity.
  - rewrite IH. reflexivity.
  - ring.
  - rewrite IH1. exact IH2.
Qed.

Lemma Qmult3_le (a b c x y z : Q) :
  0 <= a <= x -> 0 <= b <= y -> 0 <= c <= z -> a * b * c <= x * y * z.
Proof.
  intros Ha Hb Hc.
  apply Qmult_le_compat_nonneg; [| exact Hc].
  split.
  - apply Qmult_le_0_compat; lra.
  - apply Qmult_le_compat_nonneg; assumption.
Qed.

Lemma dominated_part_volume (l w h : Q) (block : list Z) :
  0 <= l -> 0 <= w -> 0 <= h ->
  fitting_block [l; w; h] block ->
  0 <= part_volume_of [l; w; h] <= inject_Z (volume_of block).
Proof.
  intros Hl Hw Hh [Hin Hdom].
  assert (Hpv : part_volume_of [l; w; h] = l * w * h) by reflexivity.
  rewrite Hpv. split.
  { apply Qmult_le_0_compat; [apply Qmult_le_0_compat |]; assumption. }
  destruct (sorted_triple l w h) as (a & b & c & Es & Hperm).
  unfold dominates in Hdom. rewrite Es in Hdom.
  pose proof (block_sizes_length _ Hin) as Hlen.
  destruct block as [| x [| y [| z [| ? ?]]]]; try discriminate.
  pose proof (sorted_length Z.leb [x; y; z]) as Hslen.
  pose proof (sorted_perm Z.leb [x; y; z]) as Hsperm.
  destruct (Py.sorted Z.leb [x; y; z]) as [| x' [| y' [| z' [| ? ?]]]];
    try discriminate.
  cbn in Hdom.
  inversion Hdom as [| ? ? ? ? Ha H']; subst.
  inversion H' as [| ? ? ? ? Hb H'']; subst.
  inversion H'' as [| ? ? ? ? Hc _]; subst.
  assert (Hnn : Forall (fun d => 0 <= d) [a; b; c]).
  { eapply Permutation_Forall; [exact Hperm |].
    repeat constructor; assumption. }
  inversion Hnn as [| ? ? Ha0 Hnn']; subst.
  inversion Hnn' as [| ? ? Hb0 Hnn'']; subst.
  inversion Hnn'' as [| ? ? Hc0 _]; subst.
  apply Qprod_perm in Hperm. apply Zprod_perm in Hsperm.
  cbn in Hperm, Hsperm.
  assert (Ev : volume_of [x; y; z] = (x' * y' * z')%Z).
  { unfold volume_of. cbn. lia. }
  rewrite Ev, !inject_Z_mult.
  assert (Ep : l * w * h == a * b * c) by (rewrite <- Qmult_assoc; lra).
  rewrite Ep. apply Qmult3_le; split; assumption.
Qed.

(** X18: for a part of non-negative dimensions, the block that is chosen
    is at least as large in volume as the bounding box of the part, so
    that its waste ratio lies between 0 and 1. *)
Theorem X18_chosen_block_holds_the_bounding_box
    (l w h : Q) (block : list Z) :
  0 <= l -> 0 <= w -> 0 <= h ->
  find_smallest_fitting_block [l; w; h] = Some block ->
  l * w * h <= inject_Z (volume_of block) /\
  0 <= waste_ratio [l; w; h] block <= 1.
Proof.
  intros Hl Hw Hh E.
  apply find_smallest_fitting_block_fits in E.
  pose proof (block_sizes_positive _ (proj1 E)) as Hpos.
  apply block_fits_fitting_block in E.
  destruct (dominated_part_volume l w h block Hl Hw Hh E) as [H0 Hle].
  assert (Hpv : part_volume_of [l; w; h] = l * w * h) by reflexivity.
  split; [rewrite <- Hpv; exact Hle |].
  assert (Hb : 0 < inject_Z (volume_of block)).
  { change 0 with (inject_Z 0). rewrite <- Zlt_Qlt. exact Hpos. }
  split.
  - unfold waste_ratio. apply Qle_shift_div_l; [exact Hb | lra].
  - apply waste_ratio_le; [exact Hpos | lra].
Qed.

Lemma X18_witness_cube_40 :
  40 * 40 * 40 <= inject_Z (volume_of [50; 50; 50]%Z).
Proof.
  apply (X18_chosen_block_holds_the_bounding_box 40 40 40 [50; 50; 50]%Z);
    vm_compute; (discriminate || reflexivity).
Defined.

Lemma find_smallest_fitting_block_candidate (dimensions : list Q)
    (block : list Z) :
  find_smallest_fitting_block dimensions = Some block ->
  exists c, In c (fitting_blocks_of dimensions) /\ c_block c = block.
Proof.
  rewrite find_smallest_fitting_block_unfold. cbv zeta.
  fold (fitting_blocks_of dimensions).
  destruct (fitting_blocks_of dimensions) as [| c0 l0] eqn:Ef; [discriminate |].
  rewrite <- Ef.
  destruct (List.filter in_band (fitting_blocks_of dimensions))
    as [| c1 l1] eqn:Eo.
  - destruct (Py.min_by Z.ltb c_volume _) as [m |] eqn:Em; [| discriminate].
    intros [= <-]. apply min_by_volume_Some in Em as [Hin _]. eauto.
  - destruct (Py.min_by Py.pair_ltb _ _) as [m |] eqn:Em; [| discriminate].
    intros [= <-]. apply min_by_key_Some in Em as [Hin _].
    rewrite <- Eo in Hin. apply filter_In in Hin. destruct Hin. eauto.
Qed.

(** X20: as soon as one fitting block wastes at most 70 percent of its
    volume, so does the block that is chosen: blocks wasting more are only
    considered when every fitting block does. *)
Theorem X20_waste_at_most_70_percent_when_possible
    (l w h : Q) (b0 : list Z) :
  fitting_block [l; w; h] b0 -> waste_ratio [l; w; h] b0 <= 0.7 ->
  exists block,
    find_smallest_fitting_block [l; w; h] = Some block /\
    fitting_block [l; w; h] block /\
    waste_ratio [l; w; h] block <= 0.7.
Proof.
  intros Hfit Hw. apply block_fits_fitting_block in Hfit.
  destruct (find_smallest_fitting_block [l; w; h]) as [b |] eqn:E;
    [| rewrite find_smallest_fitting_block_None in E; elim (E _ Hfit)].
  exists b. split; [reflexivity |].
  split; [apply block_fits_fitting_block,
            find_smallest_fitting_block_fits, E |].
  apply find_smallest_fitting_block_candidate in E as (c & Hc & <-).
  assert (H0 : In {| c_block := b0; c_waste := waste_ratio [l; w; h] b0;
                     c_volume := volume_of b0 |} (within_waste [l; w; h])).
  { apply in_within_waste. eauto. }
  unfold fitting_blocks_of in Hc.
  destruct (within_waste [l; w; h]) as [| c1 l1] eqn:Ew; [contradiction |].
  rewrite <- Ew in Hc. apply in_within_waste in Hc.
  destruct Hc as (b & _ & Hb & ->). exact Hb.
Qed.

Lemma X20_witness_cube_40 :
  exists block,
    find_smallest_fitting_block [40; 40; 40] = Some block /\
    fitting_block [40; 40; 40] block /\
    waste_ratio [40; 40; 40] block <= 0.7.
Proof.
  apply (X20_waste_at_most_70_percent_when_possible 40 40 40 [50; 50; 50]%Z).
  - split; [simpl; tauto |]. unfold dominates.
    repeat (constructor; [vm_compute; discriminate |]). constructor.
  - vm_compute. discriminate.
Defined.

(** ** Machine time *)

Lemma max_zero_cases (x : Q) :
  x <= Py.max 0 x /\ (0 <= x -> Py.max 0 x == x).
Proof.
  split; [| apply max_zero_nonneg].
  destruct (max_spec 0 x) as [[H ->] | [H ->]]; lra.
Qed.

(** X19: [estimate_machine_time] divides the phase volumes, not clamped,
    by the removal rates 350, 100 and 20.  With the block entered in the
    volumes it is at most the time of the clamped phase volumes of the
    quote, and equal to it when the hull fits in the block and the part
    fills at most 0.8 of its hull; without the block entry the block
    counts as empty. *)
Theorem X19_machine_time_is_not_clamped
    (mesh : Mesh) (quantity : Z) (e : option string) (block : list Z) :
  let volumes := set_block_volume (calculate_volumes mesh) (volume_of block) in
  let r := quote_for_block mesh quantity e block in
  let clamped :=
    coarse_volume (breakdown r) / 350 + medium_volume (breakdown r) / 100
    + fine_volume (breakdown r) / 20 in
  estimate_machine_time volumes <= clamped /\
  (v_convex_hull_volume volumes <= inject_Z (volume_of block) ->
   v_part_volume volumes <= v_shrink_wrap_volume volumes ->
   estimate_machine_time volumes == clamped /\
   0 <= estimate_machine_time volumes) /\
  estimate_machine_time (calculate_volumes mesh)
  == estimate_machine_time volumes - inject_Z (volume_of block) / 350.
Proof.
  destruct (quote_milling mesh quantity e block)
    as (_ & Hc & Hm & Hf & _ & _ & _).
  cbv zeta in *. rewrite Hc, Hm, Hf. clear Hc Hm Hf.
  unfold estimate_machine_time, set_block_volume, calculate_volumes.
  cbn [v_part_volume v_convex_hull_volume v_shrink_wrap_volume
       v_block_volume default from_option id].
  change (Py.ltb 0 coarse_mrr) with true.
  change (Py.ltb 0 medium_mrr) with true.
  change (Py.ltb 0 fine_mrr) with true. cbv iota.
  unfold coarse_mrr, medium_mrr, fine_mrr, Qdiv.
  change (/ 350) with (1 # 350). change (/ 100) with (1 # 100).
  change (/ 20) with (1 # 20). change (inject_Z 0) with 0.
  pose proof (Qabs_nonneg (convex_hull_volume mesh)) as Hhull.
  set (hull := Qabs (convex_hull_volume mesh)) in *.
  set (part := Qabs (volume mesh)) in *.
  set (bv := inject_Z (volume_of block)) in *.
  destruct (max_zero_cases (bv - hull)) as [Hc1 Hc2].
  destruct (max_zero_cases (hull - hull * 0.8)) as [Hm1 Hm2].
  destruct (max_zero_cases (hull * 0.8 - part)) as [Hf1 Hf2].
  set (cv := Py.max 0 (bv - hull)) in *.
  set (mv := Py.max 0 (hull - hull * 0.8)) in *.
  set (fv := Py.max 0 (hull * 0.8 - part)) in *.
  split; [lra |]. split; [| lra].
  intros Hfit Hfill.
  specialize (Hc2 ltac:(lra)). specialize (Hm2 ltac:(lra)).
  specialize (Hf2 ltac:(lra)).
  split; lra.
Qed.

(** ** The orientation of the part *)

Lemma leb_proper (a a' b b' : Q) :
  a == a' -> b == b' -> Py.leb a b = Py.leb a' b'.
Proof. intros Ha Hb. unfold Py.leb. rewrite Ha, Hb. reflexivity. Qed.

Lemma all_le_proper (ds ds' bs : list Q) :
  Forall2 Qeq ds ds' -> Py.all_le ds bs = Py.all_le ds' bs.
Proof.
  intros H. revert bs. induction H as [| d d' ds ds' Hd _ IH]; intros bs.
  - reflexivity.
  - destruct bs as [| b bs]; [reflexivity |].
    unfold Py.all_le in *. cbn.
    rewrite (leb_proper d d' b b Hd) by reflexivity.
    rewrite IH. reflexivity.
Qed.

Ltac sort_three :=
  unfold Py.sorted, Py.insert_sorted;
  repeat match goal with
         | |- context [Py.leb ?a ?b] => case_leb a b
         end;
  repeat constructor; lra.

(** Sorting the three dimensions gives the same values whatever the order
    they come in. *)
Lemma sorted_any_order (l w h : Q) (d : list Q) :
  In d [[l; h; w]; [w; l; h]; [w; h; l]; [h; l; w]; [h; w; l]] ->
  Forall2 Qeq (Py.sorted Py.leb d) (Py.sorted Py.leb [l; w; h]).
Proof.
  intros H.
  destruct H as [<- | [<- | [<- | [<- | [<- | []]]]]]; sort_three.
Qed.

(** X21: the test whether a block fits is made on the sorted dimensions,
    so that it does not depend on the order in which the three dimensions
    of the part are given; the stock selection therefore finds no block for
    one order exactly when it finds none for another: turning the part
    never changes whether it is refused. *)
Theorem X21_fitting_ignores_orientation (l w h : Q) (d : list Q) :
  In d [[l; h; w]; [w; l; h]; [w; h; l]; [h; l; w]; [h; w; l]] ->
  (forall block,
      fits (Py.sorted Py.leb d) block
      = fits (Py.sorted Py.leb [l; w; h]) block) /\
  (find_smallest_fitting_block d = None
   <-> find_smallest_fitting_block [l; w; h] = None).
Proof.
  intros Hd.
  assert (Hfit : forall block,
             fits (Py.sorted Py.leb d) block
             = fits (Py.sorted Py.leb [l; w; h]) block).
  { intros block. unfold fits. apply all_le_proper, sorted_any_order, Hd. }
  split; [exact Hfit |].
  rewrite !find_smallest_fitting_block_None. unfold block_fits.
  split; intros H block [Hin Hb]; apply (H block); split; try exact Hin.
  - rewrite Hfit. exact Hb.
  - rewrite <- Hfit. exact Hb.
Qed.

Lemma X21_witness_plate_turned :
  find_smallest_fitting_block [20; 100; 80] = None
  <-> find_smallest_fitting_block [100; 80; 20] = None.
Proof.
  apply (X21_fitting_ignores_orientation 100 80 20 [20; 100; 80]).
  simpl. tauto.
Defined.

Lemma quote_block (mesh : Mesh) (quantity : Z) (e : option string)
    (block : list Z) :
  let r := quote_for_block mesh quantity e block in
  block_size (breakdown r) = block /\
  block_volume (breakdown r) = volume_of block.
Proof. quote_field. Qed.

(** X22: the block listed in the breakdown of a quote is the one the stock
    selection returns for the bounding box of the mesh, a block of the
    catalog that dominates the part; the block volume listed next to it is
    the product of its sides, and is positive. *)
Theorem X22_block_of_the_breakdown
    (mesh : Mesh) (quantity : Z) (e : option string) (r : QuoteResult) :
  calculate_costs mesh quantity e = Return r ->
  find_smallest_fitting_block (dimensions_of mesh)
  = Some (block_size (breakdown r)) /\
  fitting_block (dimensions_of mesh) (block_size (breakdown r)) /\
  block_volume (breakdown r) = volume_of (block_size (breakdown r)) /\
  (0 < block_volume (breakdown r))%Z.
Proof.
  intros H. apply calculate_costs_Return in H as (b & E & Hfit & ->).
  destruct (quote_block mesh quantity e b) as (Hs & Hv).
  cbv zeta in Hs, Hv. rewrite Hs, Hv.
  split; [exact E |].
  split; [| split; [reflexivity | apply block_sizes_positive, Hfit]].
  destruct (dimensions_of_triple mesh) as (l & w & h & Ed).
  rewrite Ed in *. apply block_fits_fitting_block, Hfit.
Qed.

Lemma X22_witness_plate :
  block_volume (breakdown (quote_for_block plate 1 None [100; 100; 100]%Z))
  = volume_of
      (block_size (breakdown (quote_for_block plate 1 None [100; 100; 100]%Z))).
Proof.
  destruct (X22_block_of_the_breakdown plate 1 None
              (quote_for_block plate 1 None [100; 100; 100]%Z))
    as (_ & _ & H & _); [vm_compute; reflexivity | exact H].
Defined.
